(** * zpark, API version 1: the request handlers of [zpark/v1.py]

    A shallow embedding of the three Flask-RESTful resources of
    [src/zpark/v1.py] ([Alert.post], [Ping.get], [Webhook.post]) and of the
    library calls they make ([int], [hmac.new(...).hexdigest()],
    [hmac.compare_digest], [bytes(s, 'utf-8')], [dict.get],
    [reqparse.RequestParser.parse_args]).

    A handler is a computation that records the calls it makes on the
    outside world (the request body, the logger, the [api_common]
    collaborators) and ends either by returning a value or by raising a
    Python exception. *)

From Stdlib Require Import ZArith List String Ascii Strings.Byte Bool Lia.
From Stdlib Require Import DecimalString.
Set Warnings "-register-all".
From stdpp Require Import base option gmap strings.
Import ListNotations.
Local Open Scope string_scope.
Local Open Scope list_scope.
Local Open Scope Z_scope.

(* ===================================================================== *)
(** ** Python text and bytes *)
(* ===================================================================== *)

(** [bytes]: a sequence of octets. *)
Abbreviation bytes := (list Byte.byte).

(** [str]: a Python string as the sequence of its Unicode code points.  A
    header value handed over by WSGI is decoded as latin-1, so it is a
    Rocq [string] read one character per code point below 256; the same
    holds for the ASCII literals of the source.  [lit] embeds such text
    into [str]. *)
Definition str := list N.

Definition lit (s : string) : str := map N_of_ascii (list_ascii_of_string s).

Definition str_eqb (a b : str) : bool := bool_decide (a = b).

Module Utf8.

Definition byte_of (n : N) : Byte.byte :=
  match Byte.of_N (n mod 256)%N with Some b => b | None => x00 end.

(** The UTF-8 code units of one code point; [None] for what the codec
    refuses (a surrogate, or a number that is no code point). *)
Definition encode_point (c : N) : option bytes :=
  (if c <? 0x80 then Some [byte_of c]
   else if c <? 0x800 then
     Some [byte_of (N.lor 0xC0 (N.shiftr c 6));
           byte_of (N.lor 0x80 (N.land c 0x3F))]
   else if (0xD800 <=? c) && (c <=? 0xDFFF) then None
   else if c <? 0x10000 then
     Some [byte_of (N.lor 0xE0 (N.shiftr c 12));
           byte_of (N.lor 0x80 (N.land (N.shiftr c 6) 0x3F));
           byte_of (N.lor 0x80 (N.land c 0x3F))]
   else if c <=? 0x10FFFF then
     Some [byte_of (N.lor 0xF0 (N.shiftr c 18));
           byte_of (N.lor 0x80 (N.land (N.shiftr c 12) 0x3F));
           byte_of (N.lor 0x80 (N.land (N.shiftr c 6) 0x3F));
           byte_of (N.lor 0x80 (N.land c 0x3F))]
   else None)%N.

(** [bytes(s, 'utf-8')]; [None] is [UnicodeEncodeError]. *)
Fixpoint encode (s : str) : option bytes :=
  match s with
  | [] => Some []
  | c :: r =>
      match encode_point c, encode r with
      | Some b, Some br => Some (b ++ br)
      | _, _ => None
      end
  end.

End Utf8.

(* ===================================================================== *)
(** ** [hashlib.sha1] and [hmac] *)
(* ===================================================================== *)

Module Sha1.

Definition w32 (x : Z) : Z := x mod 2 ^ 32.

Definition rotl (n x : Z) : Z :=
  w32 (Z.lor (Z.shiftl x n) (Z.shiftr x (32 - n))).

Definition not32 (x : Z) : Z := Z.lxor x 0xFFFFFFFF.

Definition f (t : nat) (b c d : Z) : Z :=
  if (t <? 20)%nat then Z.lor (Z.land b c) (Z.land (not32 b) d)
  else if (t <? 40)%nat then Z.lxor (Z.lxor b c) d
  else if (t <? 60)%nat then
    Z.lor (Z.lor (Z.land b c) (Z.land b d)) (Z.land c d)
  else Z.lxor (Z.lxor b c) d.

Definition K (t : nat) : Z :=
  if (t <? 20)%nat then 0x5A827999
  else if (t <? 40)%nat then 0x6ED9EBA1
  else if (t <? 60)%nat then 0x8F1BBCDC
  else 0xCA62C1D6.

(** Padding: a 1 bit, zeros up to 56 modulo 64, the bit length on 64 bits. *)
Definition be_bytes (n : nat) (x : Z) : list Z :=
  map (fun i => Z.land (Z.shiftr x (8 * Z.of_nat i)) 0xFF) (rev (seq 0 n)).

Definition pad (m : list Z) : list Z :=
  let len := Z.of_nat (length m) in
  m ++ [0x80]
    ++ repeat 0 (Z.to_nat ((55 - len) mod 64))
    ++ be_bytes 8 (8 * len).

Fixpoint words (n : nat) (l : list Z) : list Z :=
  match n, l with
  | S n', a :: b :: c :: d :: r =>
      (Z.shiftl a 24 + Z.shiftl b 16 + Z.shiftl c 8 + d) :: words n' r
  | _, _ => []
  end.

(** The message schedule, most recent word first. *)
Fixpoint schedule (n : nat) (ws : list Z) : list Z :=
  match n with
  | O => ws
  | S n' =>
      let w := rotl 1 (Z.lxor (Z.lxor (Z.lxor (nth 2 ws 0) (nth 7 ws 0))
                                      (nth 13 ws 0)) (nth 15 ws 0)) in
      schedule n' (w :: ws)
  end.

Definition state := (Z * Z * Z * Z * Z)%type.

Fixpoint rounds (t : nat) (ws : list Z) (s : state) : state :=
  match ws with
  | [] => s
  | w :: r =>
      let '(a, b, c, d, e) := s in
      let tmp := w32 (rotl 5 a + f t b c d + e + K t + w) in
      rounds (S t) r (tmp, a, rotl 30 b, c, d)
  end.

Definition compress (s : state) (block : list Z) : state :=
  let ws := rev (schedule 64 (rev (words 16 block))) in
  let '(a, b, c, d, e) := rounds 0 ws s in
  let '(h0, h1, h2, h3, h4) := s in
  (w32 (h0 + a), w32 (h1 + b), w32 (h2 + c), w32 (h3 + d), w32 (h4 + e)).

Fixpoint blocks (n : nat) (l : list Z) (s : state) : state :=
  match n with
  | O => s
  | S n' => blocks n' (skipn 64 l) (compress s (firstn 64 l))
  end.

Definition init : state :=
  (0x67452301, 0xEFCDAB89, 0x98BADCFE, 0x10325476, 0xC3D2E1F0).

(** The 20 octets of the digest, as numbers below 256. *)
Definition digest (m : list Z) : list Z :=
  let p := pad m in
  let '(h0, h1, h2, h3, h4) := blocks (length p / 64) p init in
  be_bytes 4 h0 ++ be_bytes 4 h1 ++ be_bytes 4 h2 ++ be_bytes 4 h3
    ++ be_bytes 4 h4.

End Sha1.

Module Hmac.

Definition octets (b : bytes) : list Z := map (fun x => Z.of_N (Byte.to_N x)) b.

Definition block_size : nat := 64.

(** [hmac.new(key, msg, hashlib.sha1).digest()] *)
Definition digest (key msg : bytes) : list Z :=
  let k := octets key in
  let k := if (block_size <? length k)%nat then Sha1.digest k else k in
  let k := k ++ repeat 0 (block_size - length k) in
  let ipad := map (Z.lxor 0x36) k in
  let opad := map (Z.lxor 0x5C) k in
  Sha1.digest (opad ++ Sha1.digest (ipad ++ octets msg)).

Definition hex_digit (n : Z) : ascii :=
  if n <? 10 then ascii_of_N (Z.to_N (48 + n))
  else ascii_of_N (Z.to_N (87 + n)).

Fixpoint hex (l : list Z) : string :=
  match l with
  | [] => EmptyString
  | x :: r => String (hex_digit (x / 16)) (String (hex_digit (x mod 16)) (hex r))
  end.

(** [hmac.new(key, msg=msg, digestmod=hashlib.sha1).hexdigest()] *)
Definition hexdigest (key msg : bytes) : string := hex (digest key msg).

Definition is_ascii (s : string) : bool :=
  forallb (fun c => (N_of_ascii c <? 128)%N) (list_ascii_of_string s).

(** [hmac.compare_digest(a, b)] on two [str]: [None] is the [TypeError]
    raised when either holds a character outside ASCII. *)
Definition compare_digest (a b : string) : option bool :=
  if is_ascii a && is_ascii b then Some (String.eqb a b) else None.

End Hmac.

Definition ascii_bytes (s : string) : bytes := map byte_of_ascii (list_ascii_of_string s).

(* ===================================================================== *)
(** ** Python values, exceptions, and the handler monad *)
(* ===================================================================== *)

(** The Python objects that [json.loads] builds.  A float is kept as its
    IEEE-754 bit pattern, a [dict] as its items in insertion order. *)
Inductive jsonval :=
| JNone
| JBool (b : bool)
| JInt (n : Z)
| JFloat (bits : Z)
| JStr (s : str)
| JList (l : list jsonval)
| JDict (items : list (str * jsonval)).

(** The objects that the handlers pass on and return: a JSON value, a
    tuple, or [PStrOf v], the [str] object [str(v)] of a float, list or
    dict [v], whose text is not computed here. *)
Inductive pyval :=
| PJson (v : jsonval)
| PTuple (l : list pyval)
| PStrOf (v : jsonval).
Coercion PJson : jsonval >-> pyval.

Inductive exn :=
| TypeError
| ValueError
| AttributeError
| KeyError
| UnicodeEncodeError
| HTTPException (code : Z) (data : jsonval).

Inductive level := DEBUG | INFO | WARNING.

(** What a handler does to the outside world, in program order. *)
Inductive event :=
| EvGetJson                                   (* request.get_json(), request.json *)
| EvGetData                                   (* request.get_data() *)
| EvHmac                                      (* hmac.new(...).hexdigest() *)
| EvLog (lv : level) (template : string) (args : list pyval)
| EvHandleSparkWebhook (payload : jsonval)    (* api_common.handle_spark_webhook *)
| EvSendSparkAlertMessage (to subject message : pyval)
| EvPing (api_version : Z).

Inductive result (A : Type) :=
| Return (a : A)
| Raise (e : exn).
Arguments Return {A} a.
Arguments Raise {A} e.

(** A computation: the events it performed, and how it ended. *)
Definition M (A : Type) : Type := (list event * result A)%type.

Definition ret {A} (a : A) : M A := ([], Return a).
Definition raise {A} (e : exn) : M A := ([], Raise e).
Definition emit (ev : event) : M unit := ([ev], Return tt).
Definition lift {A} (r : result A) : M A := ([], r).

Definition bind {A B} (m : M A) (k : A -> M B) : M B :=
  match m with
  | (t, Return a) => let '(t', r) := k a in (t ++ t', r)
  | (t, Raise e) => (t, Raise e)
  end.

Notation "'let*' x ':=' m 'in' k" := (bind m (fun x => k))
  (at level 10, x name, m at level 100, k at level 200).
Notation "m '>>' k" := (bind m (fun _ => k))
  (at level 100, k at level 200, right associativity).

Definition trace {A} (m : M A) : list event := fst m.
Definition outcome {A} (m : M A) : result A := snd m.

(* ===================================================================== *)
(** ** Builtins *)
(* ===================================================================== *)

Module Builtins.

Definition code (c : ascii) : Z := Z.of_N (N_of_ascii c).

(** The white space that [int] skips around the number, among the code
    points below 256: tab to carriage return, space, U+0085, U+00A0. *)
Definition is_space (c : ascii) : bool :=
  let n := code c in
  ((9 <=? n) && (n <=? 13)) || (n =? 32) || (n =? 133) || (n =? 160).

Definition digit_val (c : ascii) : option Z :=
  let n := code c in
  if (48 <=? n) && (n <=? 57) then Some (n - 48) else None.

Fixpoint lstrip (l : list ascii) : list ascii :=
  match l with
  | c :: r => if is_space c then lstrip r else l
  | [] => []
  end.

Definition strip (l : list ascii) : list ascii := rev (lstrip (rev (lstrip l))).

(** Decimal digits, single underscores allowed between two digits. *)
Fixpoint digits (l : list ascii) (acc : Z) (after_digit : bool) : option Z :=
  match l with
  | [] => if after_digit then Some acc else None
  | c :: r =>
      if (code c =? 95) then
        if after_digit then digits r acc false else None
      else
        match digit_val c with
        | Some d => digits r (10 * acc + d) true
        | None => None
        end
  end.

(** [sys.get_int_max_str_digits()], as the interpreter starts with it: a
    text with more digit characters than this is refused. *)
Definition max_str_digits : nat := 4300.

Definition count_digits (l : list ascii) : nat :=
  length (List.filter
            (fun c => match digit_val c with Some _ => true | None => false end) l).

Definition number (l : list ascii) : option Z :=
  if (max_str_digits <? count_digits l)%nat then None else digits l 0 false.

(** [int(s)] for a [str] [s] with code points below 256: surrounding
    white space, an optional sign, decimal digits, no more of them than
    [max_str_digits].  [None] is [ValueError]. *)
Definition int_of_string (s : string) : option Z :=
  match strip (list_ascii_of_string s) with
  | c :: r =>
      if code c =? 43 then number r
      else if code c =? 45 then Z.opp <$> number r
      else number (c :: r)
  | [] => None
  end.

(** [int(x)] where [x] is [None] or a [str], as [headers.get(name, None)]
    returns it: [int(None)] raises [TypeError]. *)
Definition int (x : option string) : result Z :=
  match x with
  | None => Raise TypeError
  | Some s =>
      match int_of_string s with
      | Some n => Return n
      | None => Raise ValueError
      end
  end.

(** [bytes(s, 'utf-8')] *)
Definition bytes_utf8 (s : str) : result bytes :=
  match Utf8.encode s with
  | Some b => Return b
  | None => Raise UnicodeEncodeError
  end.

Fixpoint assoc {V} (k : str) (items : list (str * V)) : option V :=
  match items with
  | [] => None
  | (k', v) :: r => if str_eqb k k' then Some v else assoc k r
  end.

(** [obj.get(key, default)]: among the JSON values only a [dict] has the
    method. *)
Definition get (obj : jsonval) (key : str) (default : jsonval) : result jsonval :=
  match obj with
  | JDict items =>
      match assoc key items with
      | Some v => Return v
      | None => Return default
      end
  | _ => Raise AttributeError
  end.

Definition str_of_Z (n : Z) : str :=
  lit (NilZero.string_of_int (Z.to_int n)).

(** [str(v)] *)
Definition str_ (v : jsonval) : pyval :=
  match v with
  | JStr s => JStr s
  | JInt n => JStr (str_of_Z n)
  | JBool true => JStr (lit "True")
  | JBool false => JStr (lit "False")
  | JNone => JStr (lit "None")
  | _ => PStrOf v
  end.

(** [needle in haystack] on two [str]. *)
Fixpoint is_prefix (p s : str) : bool :=
  match p, s with
  | [], _ => true
  | a :: p', b :: s' => (a =? b)%N && is_prefix p' s'
  | _ :: _, [] => false
  end.

Fixpoint is_substring (p s : str) : bool :=
  is_prefix p s || match s with [] => false | _ :: s' => is_substring p s' end.

End Builtins.

(* ===================================================================== *)
(** ** The Flask request, the application config, the collaborators *)
(* ===================================================================== *)

(** [flask.request] as the handlers observe it.  [headers] is keyed by the
    header names in the spelling the source uses; [data] is what
    [request.get_data()] returns; [json] is how [request.get_json()] ends
    on this request: the parsed body, [None] where Flask answers so, or the
    exception it raises ([BadRequest], an [HTTPException] with code 400, on
    a body that is not JSON). *)
Record request := {
  headers : gmap string string;
  data : bytes;
  json : result jsonval;
}.

(** [app.config]: the keys the handlers read.  [SPARK_WEBHOOK_SECRET] is
    [None] when the key is not in the config; [apiToken] is the token of
    the spec's AuthConfig. *)
Record config := {
  MAX_CONTENT_LENGTH : Z;
  SPARK_WEBHOOK_SECRET : option str;
  apiToken : string;
}.

(** [zpark.api_common]: the collaborators, which return a value or raise,
    the name of the header that carries the API token, and the response
    that a denied token is mapped to. *)
Record api_common := {
  handle_spark_webhook : jsonval -> result pyval;
  send_spark_alert_message : pyval -> pyval -> pyval -> result pyval;
  ping : Z -> result pyval;
  token_header : string;
  token_denied : string -> pyval;
}.

Definition headers_get (req : request) (name : string) : option string :=
  headers req !! name.

Definition get_json (req : request) : M jsonval :=
  emit EvGetJson >> lift (json req).

Definition get_data (req : request) : M bytes :=
  emit EvGetData >> ret (data req).

Definition logger (lv : level) (template : string) (args : list pyval) : M unit :=
  emit (EvLog lv template args).

(** A response [({'error': msg}, status)]. *)
Definition error_response (msg : string) (status : Z) : pyval :=
  PTuple [PJson (JDict [(lit "error", JStr (lit msg))]); PJson (JInt status)].

(** Modelled from the spec: [api_common.requires_api_token], the decorator
    of [Alert.post] and [Ping.get], is not in the sources.  The spec's
    TokenAuthGuard (section 4.1) authorizes iff the designated header is
    present and equals the configured token, and a denial short-circuits
    to its mapped response without running the handler (section 9). *)
Inductive AuthResult :=
| Authorized
| Denied (reason : string).

Definition TokenAuthGuard (header : option string) (configuredToken : string)
  : AuthResult :=
  match header with
  | None => Denied "missing token"
  | Some t =>
      if String.eqb t configuredToken then Authorized
      else Denied "invalid token"
  end.

Definition requires_api_token (api : api_common) (cfg : config)
    (f : request -> M pyval) (req : request) : M pyval :=
  match TokenAuthGuard (headers_get req (token_header api)) (apiToken cfg) with
  | Authorized => f req
  | Denied reason => ret (token_denied api reason)
  end.

(* ===================================================================== *)
(** ** [class Webhook(Resource)] *)
(* ===================================================================== *)

Module Webhook.

Definition unknown : jsonval := JStr (lit "<Unknown>").

(** The templates of the log entries; [quoted "{}"] is the placeholder
    between two double quote characters. *)
Definition quoted (s : string) : string :=
  let q := String (ascii_of_nat 34) EmptyString in (q ++ s ++ q)%string.

Definition no_signature_warning : string :=
  ("webhook: Unauthorized webhook callback received: no X-Spark-Signature header. Verify the callback has a configured secret. id:{} name:"
   ++ quoted "{}")%string.

Definition mismatch_warning : string :=
  ("webhook: Unauthorized webhook callback received: HMACs do not match. Verify proper setting of 'SPARK_WEBHOOK_SECRET'. id:{} name:"
   ++ quoted "{}")%string.

Definition mismatch_debug : string :=
  "webhook: Spark's HMAC: {} / Our computed HMAC: {}".

Definition received_info : string :=
  ("webhook callback received: id:{} name:" ++ quoted "{}")%string.

(** The last two statements of [post]: the info log entry and the call
    of the collaborator, whose result is returned as it is. *)
Definition dispatch (api : api_common) (reqjson whid whname : jsonval)
  : M pyval :=
  logger INFO received_info [PJson whid; PJson whname] >>
  emit (EvHandleSparkWebhook reqjson) >>
  lift (handle_spark_webhook api reqjson).

(** Lines 129 to 169 of [post]: what follows the two length checks. *)
Definition verify_and_dispatch (api : api_common) (cfg : config)
    (req : request) : M pyval :=
  let sparkhmac := headers_get req "X-Spark-Signature" in
  let* reqjson := get_json req in
  let* whid := lift (Builtins.get reqjson (lit "id") unknown) in
  let* whname := lift (Builtins.get reqjson (lit "name") unknown) in
  match SPARK_WEBHOOK_SECRET cfg with
  | Some secret =>
      match sparkhmac with
      | None =>
          logger WARNING no_signature_warning [PJson whid; PJson whname] >>
          ret (error_response "Unauthorized" 403)
      | Some sparkhmac =>
          let* key := lift (Builtins.bytes_utf8 secret) in
          let* msg := get_data req in
          let* ourhmac := (emit EvHmac >> ret (Hmac.hexdigest key msg)) in
          match Hmac.compare_digest ourhmac sparkhmac with
          | None => raise TypeError
          | Some false =>
              logger WARNING mismatch_warning [PJson whid; PJson whname] >>
              logger DEBUG mismatch_debug
                [PJson (JStr (lit sparkhmac)); PJson (JStr (lit ourhmac))] >>
              ret (error_response "Unauthorized" 403)
          | Some true => dispatch api reqjson whid whname
          end
      end
  | None => dispatch api reqjson whid whname
  end.

(** [cl and cl > app.config['MAX_CONTENT_LENGTH']] *)
Definition too_big (cl max : Z) : bool := negb (cl =? 0) && (cl >? max).

Definition post (api : api_common) (cfg : config) (req : request) : M pyval :=
  let cl := headers_get req "Content-Length" in
  match Builtins.int cl with
  | Raise ValueError => ret (error_response "Bad request" 400)
  | Raise e => raise e
  | Return cl =>
      if too_big cl (MAX_CONTENT_LENGTH cfg) then
        ret (error_response "Too big" 413)
      else verify_and_dispatch api cfg req
  end.

End Webhook.

(* ===================================================================== *)
(** ** [flask_restful.reqparse], as [Alert.post] uses it *)
(* ===================================================================== *)

Module reqparse.

(** [parser.add_argument(name, type=str, required=..., location='json',
    help=...)]: every argument of the source has [type=str] and
    [location='json'], the other options keep their defaults
    ([nullable=True], [store_missing=True], [action='store'],
    [default=None]), and errors are not bundled. *)
Record Argument := {
  name : string;
  required : bool;
  help : string;
}.

(** [Argument.source]: [request.json], an empty [MultiDict] in place of
    [None]. *)
Definition source (req : request) : M jsonval :=
  let* value := get_json req in
  ret (match value with JNone => JDict [] | _ => value end).

(** [name in source] *)
Definition contains (n : str) (src : jsonval) : result bool :=
  match src with
  | JDict items =>
      Return (match Builtins.assoc n items with Some _ => true | None => false end)
  | JList l =>
      Return (existsb (fun v => match v with JStr s => str_eqb n s | _ => false end) l)
  | JStr s => Return (Builtins.is_substring n s)
  | JNone | JBool _ | JInt _ | JFloat _ => Raise TypeError
  end.

(** [Argument.convert]: [None] is kept (the argument is nullable), any
    other value goes through [type], that is [str]. *)
Definition convert (value : jsonval) : pyval :=
  match value with
  | JNone => JNone
  | _ => Builtins.str_ value
  end.

(** [flask_restful.abort(400, message={name: help})] *)
Definition abort_validation (a : Argument) : exn :=
  HTTPException 400
    (JDict [(lit "message", JDict [(lit (name a), JStr (lit (help a)))])]).

(** [Argument.parse] *)
Definition parse (a : Argument) (req : request) : M pyval :=
  let* src := source req in
  let* found := lift (contains (lit (name a)) src) in
  if found then
    let* value := lift (Builtins.get src (lit (name a)) JNone) in
    ret (convert value)
  else if required a then raise (abort_validation a)
  else ret (PJson JNone).

(** [RequestParser.parse_args]: the namespace, one entry per argument. *)
Fixpoint parse_args (args : list Argument) (req : request)
  : M (list (string * pyval)) :=
  match args with
  | [] => ret []
  | a :: rest =>
      let* value := parse a req in
      let* ns := parse_args rest req in
      ret ((name a, value) :: ns)
  end.

(** [args[key]] *)
Fixpoint getitem (ns : list (string * pyval)) (key : string) : result pyval :=
  match ns with
  | [] => Raise KeyError
  | (k, v) :: r => if String.eqb k key then Return v else getitem r key
  end.

End reqparse.

(* ===================================================================== *)
(** ** [class Alert(Resource)] and [class Ping(Resource)] *)
(* ===================================================================== *)

Definition API_VERSION_V1 : Z := 1.
Definition API_VERSION : Z := API_VERSION_V1.

Module Alert.

Definition parser : list reqparse.Argument := [
  {| reqparse.name := "to"; reqparse.required := true;
     reqparse.help := "Identifier of person or Spark space to send the alert to. Required." |};
  {| reqparse.name := "subject"; reqparse.required := true;
     reqparse.help := "The subject (ie, first line) of text sent to the recipient. Required." |};
  {| reqparse.name := "message"; reqparse.required := false;
     reqparse.help := "The contents of the alert message. Optional." |}
].

(** The body of [post], under the decorator. *)
Definition post_body (api : api_common) (req : request) : M pyval :=
  let* args := reqparse.parse_args parser req in
  let* to := lift (reqparse.getitem args "to") in
  let* subject := lift (reqparse.getitem args "subject") in
  logger INFO "create alert: to:{} subject:{}" [to; subject] >>
  let* message := lift (reqparse.getitem args "message") in
  emit (EvSendSparkAlertMessage to subject message) >>
  lift (send_spark_alert_message api to subject message).

Definition post (api : api_common) (cfg : config) : request -> M pyval :=
  requires_api_token api cfg (post_body api).

End Alert.

Module Ping.

Definition get_body (api : api_common) (req : request) : M pyval :=
  logger INFO "ping" [] >>
  emit (EvPing API_VERSION) >>
  lift (ping api API_VERSION).

Definition get (api : api_common) (cfg : config) : request -> M pyval :=
  requires_api_token api cfg (get_body api).

End Ping.

(* ===================================================================== *)
(** ** Concrete requests *)
(* ===================================================================== *)

(** A collaborator set for running the handlers on concrete requests. *)
Definition echo_api : api_common := {|
  handle_spark_webhook := fun payload =>
    Return (PTuple [PJson payload; PJson (JInt 200)]);
  send_spark_alert_message := fun to subject message =>
    Return (PTuple [to; subject; message]);
  ping := fun v => Return (PJson (JDict [(lit "apiversion", JInt v)]));
  token_header := "Token";
  token_denied := fun reason => error_response reason 401;
|}.

Definition mk_headers (l : list (string * string)) : gmap string string :=
  list_to_map l.

(** The resources of the blueprint, as [api_v1.add_resource] registers
    them, each with the one method its class defines. *)
Inductive resource := PingR | AlertR | WebhookR.

Definition dispatch_request (api : api_common) (cfg : config) (r : resource)
  : request -> M pyval :=
  match r with
  | PingR => Ping.get api cfg
  | AlertR => Alert.post api cfg
  | WebhookR => Webhook.post api cfg
  end.

(** A JSON object body with an id and a name. *)
Definition payload_items : list (str * jsonval) :=
  [(lit "id", JStr (lit "w1")); (lit "name", JStr (lit "hook"))].

Definition payload : jsonval := JDict payload_items.

Definition payload_text : bytes :=
  ascii_bytes ("{" ++ Webhook.quoted "id" ++ ": " ++ Webhook.quoted "w1" ++ ", "
                   ++ Webhook.quoted "name" ++ ": " ++ Webhook.quoted "hook" ++ "}")%string.

Definition cfg_open : config :=
  {| MAX_CONTENT_LENGTH := 1024; SPARK_WEBHOOK_SECRET := None; apiToken := "t0ken" |}.

Definition cfg_secret : config :=
  {| MAX_CONTENT_LENGTH := 1024; SPARK_WEBHOOK_SECRET := Some (lit "s3cret");
     apiToken := "t0ken" |}.

(* ===================================================================== *)
(** ** Notions for the statements *)
(* ===================================================================== *)

Definition content_length (req : request) : option string :=
  headers_get req "Content-Length".

Definition x_spark_signature (req : request) : option string :=
  headers_get req "X-Spark-Signature".

(** The value that [reqjson.get(key, '<Unknown>')] gives on a dict. *)
Definition field (key : string) (items : list (str * jsonval)) : jsonval :=
  default Webhook.unknown (Builtins.assoc (lit key) items).

(** [Webhook.verify_and_dispatch] after [get_json] gave a JSON object with
    these items: the signature check proper, each branch with its events. *)
Definition signature_check (api : api_common) (cfg : config) (req : request)
    (items : list (str * jsonval)) : M pyval :=
  let whid := field "id" items in
  let whname := field "name" items in
  match SPARK_WEBHOOK_SECRET cfg with
  | None => Webhook.dispatch api (JDict items) whid whname
  | Some secret =>
      match x_spark_signature req with
      | None =>
          ([EvLog WARNING Webhook.no_signature_warning [PJson whid; PJson whname]],
           Return (error_response "Unauthorized" 403))
      | Some sparkhmac =>
          match Utf8.encode secret with
          | None => ([], Raise UnicodeEncodeError)
          | Some key =>
              let ourhmac := Hmac.hexdigest key (data req) in
              match Hmac.compare_digest ourhmac sparkhmac with
              | None => ([EvGetData; EvHmac], Raise TypeError)
              | Some false =>
                  ([EvGetData; EvHmac;
                    EvLog WARNING Webhook.mismatch_warning [PJson whid; PJson whname];
                    EvLog DEBUG Webhook.mismatch_debug
                      [PJson (JStr (lit sparkhmac)); PJson (JStr (lit ourhmac))]],
                   Return (error_response "Unauthorized" 403))
              | Some true =>
                  let '(t, r) := Webhook.dispatch api (JDict items) whid whname in
                  (EvGetData :: EvHmac :: t, r)
              end
          end
      end
  end.

(** The calls of the [api_common] collaborators among the events. *)
Definition collaborator_call (ev : event) : bool :=
  match ev with
  | EvHandleSparkWebhook _ | EvSendSparkAlertMessage _ _ _ | EvPing _ => true
  | _ => false
  end.

Definition octet (b : Z) : Prop := 0 <= b < 256.

(** The value under [message], [None] when the key is absent. *)
Definition message_of (items : list (str * jsonval)) : jsonval :=
  default JNone (Builtins.assoc (lit "message") items).

(** The two required arguments of [Alert.parser]. *)
Definition arg_to : reqparse.Argument :=
  nth 0 Alert.parser (reqparse.Build_Argument "" false "").
Definition arg_subject : reqparse.Argument :=
  nth 1 Alert.parser (reqparse.Build_Argument "" false "").

(** The webhook's guard chain let the request through: the declared
    length is an integer that the size check accepts, and the secret is
    unset or the signature header is our digest of the body. *)
Definition webhook_authorized (cfg : config) (req : request) : Prop :=
  exists n,
    Builtins.int (content_length req) = Return n /\
    Webhook.too_big n (MAX_CONTENT_LENGTH cfg) = false /\
    (SPARK_WEBHOOK_SECRET cfg = None \/
     exists secret key,
       SPARK_WEBHOOK_SECRET cfg = Some secret /\ Utf8.encode secret = Some key /\
       x_spark_signature req = Some (Hmac.hexdigest key (data req))).

Definition token_authorized (api : api_common) (cfg : config) (req : request)
  : Prop :=
  TokenAuthGuard (headers_get req (token_header api)) (apiToken cfg) = Authorized.

(** Flask's [BadRequest], as [get_json] raises it (outside debug mode) on
    a body that is not JSON, with the body Flask-RESTful renders for it:
    the exception's description under [message]. *)
Definition bad_request : exn :=
  HTTPException 400
    (JDict [(lit "message",
             JStr (lit "The browser (or proxy) sent a request that this server could not understand."))]).

Definition signed_request : request := {|
  headers := mk_headers [("Content-Length", "28");
                         ("X-Spark-Signature", "a924cfc00b4f1839de03b077de12316214252b64")];
  data := payload_text;
  json := Return payload;
|}.

Definition unsigned_request : request := {|
  headers := mk_headers [("Content-Length", "28")];
  data := payload_text;
  json := Return payload;
|}.

(** The right signature over a body that is not JSON. *)
Definition signed_garbage : request := {|
  headers := mk_headers [("Content-Length", "8");
                         ("X-Spark-Signature",
                          Hmac.hexdigest (ascii_bytes "s3cret") (ascii_bytes "not json"))];
  data := ascii_bytes "not json";
  json := Raise bad_request;
|}.

(** A signature header of one character, U+00E9. *)
Definition non_ascii_signature : request := {|
  headers := mk_headers [("Content-Length", "28");
                         ("X-Spark-Signature", String (ascii_of_nat 233) EmptyString)];
  data := payload_text;
  json := Return payload;
|}.

Definition null_body : request := {|
  headers := mk_headers [("Content-Length", "4")];
  data := ascii_bytes "null";
  json := Return JNone;
|}.

Definition no_content_length : request := {|
  headers := mk_headers [];
  data := payload_text;
  json := Return payload;
|}.

Definition with_content_length (cl : string) (body : bytes) (j : result jsonval)
  : request :=
  {| headers := mk_headers [("Content-Length", cl)]; data := body; json := j |}.

Definition alert_request (body : jsonval) : request := {|
  headers := mk_headers [("Content-Length", "40"); ("Token", "t0ken")];
  data := [];
  json := Return body;
|}.

(** The request gets as far as the signature check with a JSON object:
    its declared length is an integer that the size check accepts, and
    [get_json] gave a dict of these items. *)
Definition reaches_signature_check (cfg : config) (req : request)
    (items : list (str * jsonval)) : Prop :=
  exists n,
    Builtins.int (content_length req) = Return n /\
    Webhook.too_big n (MAX_CONTENT_LENGTH cfg) = false /\
    json req = Return (JDict items).

(** The failures that [Webhook.post] detects itself, each with the text
    and the status it answers: a Content-Length that [int] rejects, a
    declared length that the size check refuses, a signature header that
    is missing under a configured secret, and one that is ASCII text other
    than the computed digest. *)
Inductive webhook_failure (cfg : config) (req : request) : string -> Z -> Prop :=
| MalformedLength s :
    content_length req = Some s -> Builtins.int_of_string s = None ->
    webhook_failure cfg req "Bad request" 400
| BodyTooLarge n :
    Builtins.int (content_length req) = Return n ->
    Webhook.too_big n (MAX_CONTENT_LENGTH cfg) = true ->
    webhook_failure cfg req "Too big" 413
| MissingSignature items secret :
    reaches_signature_check cfg req items ->
    SPARK_WEBHOOK_SECRET cfg = Some secret ->
    x_spark_signature req = None ->
    webhook_failure cfg req "Unauthorized" 403
| SignatureMismatch items secret key s :
    reaches_signature_check cfg req items ->
    SPARK_WEBHOOK_SECRET cfg = Some secret ->
    Utf8.encode secret = Some key ->
    x_spark_signature req = Some s ->
    Hmac.is_ascii s = true ->
    s <> Hmac.hexdigest key (data req) ->
    webhook_failure cfg req "Unauthorized" 403.

(** The argument [name] is missing from the body that [get_json] gave, as
    the parser's test [name in source] finds it: there is no body
    ([None]), the JSON object has no such key, the JSON array does not
    hold that text, or the JSON text does not contain it.  On a number or
    a truth value the test itself raises. *)
Definition absent (name : string) (body : jsonval) : Prop :=
  match body with
  | JNone => True
  | JDict items => Builtins.assoc (lit name) items = None
  | JList l =>
      existsb (fun v => match v with JStr s => str_eqb (lit name) s | _ => false end) l
      = false
  | JStr s => Builtins.is_substring (lit name) s = false
  | JBool _ | JInt _ | JFloat _ => False
  end.

(** What [flask_restful.abort(400, message={name: help})] raises. *)
Definition validation_error (name help : string) : exn :=
  HTTPException 400 (JDict [(lit "message", JDict [(lit name, JStr (lit help))])]).

(** A digit or one of the letters a to f. *)
Definition is_lower_hex (c : ascii) : bool :=
  let n := Builtins.code c in
  ((48 <=? n) && (n <=? 57)) || ((97 <=? n) && (n <=? 102)).

(** A secret that UTF-8 cannot encode: one lone surrogate. *)
Definition cfg_surrogate : config :=
  {| MAX_CONTENT_LENGTH := 1024; SPARK_WEBHOOK_SECRET := Some [0xDC80%N];
     apiToken := "t0ken" |}.

(** The payload of [signed_request] written without blanks after the
    colons and commas, padded to the same 28 bytes before the closing
    brace: same Content-Length header, same parsed JSON, other raw bytes,
    another signature header. *)
Definition no_secret_other_body : request := {|
  headers := mk_headers [("Content-Length", "28"); ("X-Spark-Signature", "00")];
  data := ascii_bytes ("{" ++ Webhook.quoted "id" ++ ":" ++ Webhook.quoted "w1" ++ ","
                           ++ Webhook.quoted "name" ++ ":" ++ Webhook.quoted "hook"
                           ++ "   }")%string;
  json := Return payload;
|}.

(** The signature of [signed_request] in upper case. *)
Definition upper_case_signature : request := {|
  headers := mk_headers [("Content-Length", "28");
                         ("X-Spark-Signature", "A924CFC00B4F1839DE03B077DE12316214252B64")];
  data := payload_text;
  json := Return payload;
|}.

(* ===================================================================== *)
(** ** The library models on known values *)
(* ===================================================================== *)

Example sha1_abc :
  Hmac.hex (Sha1.digest (Hmac.octets (ascii_bytes "abc")))
  = "a9993e364706816aba3e25717850c26c9cd0d89d".
Proof. vm_compute. reflexivity. Qed.

Example sha1_empty :
  Hmac.hex (Sha1.digest []) = "da39a3ee5e6b4b0d3255bfef95601890afd80709".
Proof. vm_compute. reflexivity. Qed.

Example sha1_two_blocks :
  Hmac.hex (Sha1.digest (Hmac.octets (ascii_bytes
    "abcdbcdecdefdefgefghfghighijhijkijkljklmklmnlmnomnopnopq")))
  = "84983e441c3bd26ebaae4aa1f95129e5e54670f1".
Proof. vm_compute. reflexivity. Qed.

Example hmac_sha1_fox :
  Hmac.hexdigest (ascii_bytes "key")
    (ascii_bytes "The quick brown fox jumps over the lazy dog")
  = "de7c9b85b8b78aa6bc8a7a36f70a90701c9db4d9".
Proof. vm_compute. reflexivity. Qed.

Example hmac_sha1_empty :
  Hmac.hexdigest [] [] = "fbdb1d1b18aa6c08324b7d64b71fb76370690e1d".
Proof. vm_compute. reflexivity. Qed.

Example hmac_sha1_long_key :
  Hmac.hexdigest (repeat "k"%byte 70) (repeat "x"%byte 130)
  = "3f46762cc302c10eb44d01f88410e2978606eb7d".
Proof. vm_compute. reflexivity. Qed.

(** The secret [s, e-acute, c, r, e, t, euro sign, U+1F600] over the body
    [{"id": 1}]. *)
Example hmac_sha1_utf8_key :
  (key ← Utf8.encode [115; 233; 99; 114; 101; 116; 8364; 128512]%N;
   Some (Hmac.hexdigest key
           (ascii_bytes ("{" ++ String (ascii_of_nat 34) "id"
                             ++ String (ascii_of_nat 34) ": 1}"))))
  = Some "97f8311f19262b3376d0e015c4224c8f83acae50".
Proof. vm_compute. reflexivity. Qed.

Example utf8_surrogate : Utf8.encode [0xDC80%N] = None.
Proof. reflexivity. Qed.

Example int_abc : Builtins.int (Some "abc") = Raise ValueError.
Proof. reflexivity. Qed.
Example int_empty : Builtins.int (Some "") = Raise ValueError.
Proof. reflexivity. Qed.
Example int_50 : Builtins.int (Some "50") = Return 50.
Proof. reflexivity. Qed.
Example int_spaces : Builtins.int (Some " +1_000 ") = Return 1000.
Proof. reflexivity. Qed.
Example int_neg : Builtins.int (Some "-5") = Return (-5).
Proof. reflexivity. Qed.
Example int_float : Builtins.int (Some "1.5") = Raise ValueError.
Proof. reflexivity. Qed.
Example int_sign_only : Builtins.int (Some "-") = Raise ValueError.
Proof. reflexivity. Qed.
Example int_underscores : Builtins.int (Some "1__0") = Raise ValueError.
Proof. reflexivity. Qed.
Example int_None : Builtins.int None = Raise TypeError.
Proof. reflexivity. Qed.
Example str_int : Builtins.str_ (JInt (-12)) = JStr (lit "-12").
Proof. reflexivity. Qed.
Example str_zero : Builtins.str_ (JInt 0) = JStr (lit "0").
Proof. reflexivity. Qed.

(** [parse_args] on bodies that are no JSON object: [None] counts as an
    empty source; in a list or a str the membership test can succeed, and
    then [source.get] is missing. *)
Example alert_body_none :
  Alert.post echo_api cfg_open (alert_request JNone)
  = ([EvGetJson], Raise (reqparse.abort_validation arg_to)).
Proof. vm_compute. reflexivity. Qed.

Example alert_body_list :
  Alert.post echo_api cfg_open (alert_request (JList [JStr (lit "to")]))
  = ([EvGetJson], Raise AttributeError).
Proof. vm_compute. reflexivity. Qed.

Example alert_body_number :
  Alert.post echo_api cfg_open (alert_request (JInt 5))
  = ([EvGetJson], Raise TypeError).
Proof. vm_compute. reflexivity. Qed.

Example alert_bad_token :
  Alert.post echo_api cfg_secret
    {| headers := mk_headers [("Token", "guess")]; data := []; json := Return payload |}
  = ([], Return (error_response "invalid token" 401)).
Proof. vm_compute. reflexivity. Qed.

Example ping_ok :
  Ping.get echo_api cfg_open (alert_request JNone)
  = ([EvLog INFO "ping" []; EvPing 1],
     Return (PJson (JDict [(lit "apiversion", JInt 1)]))).
Proof. vm_compute. reflexivity. Qed.

(* ===================================================================== *)
(** ** Laws of the handler monad *)
(* ===================================================================== *)

Lemma bind_lift_Return {A B} (a : A) (k : A -> M B) :
  bind (lift (Return a)) k = k a.
Proof. unfold bind, lift. destruct (k a); reflexivity. Qed.

Lemma bind_lift_Raise {A B} (e : exn) (k : A -> M B) :
  bind (lift (Raise e)) k = ([], Raise e).
Proof. reflexivity. Qed.

Lemma bind_ret {A B} (a : A) (k : A -> M B) : bind (ret a) k = k a.
Proof. apply bind_lift_Return. Qed.

Lemma bind_emit_Return {A B} (ev : event) (a : A) (k : A -> M B) :
  bind (emit ev >> lift (Return a)) k = let '(t, r) := k a in (ev :: t, r).
Proof. unfold bind, emit, lift. destruct (k a); reflexivity. Qed.

Lemma bind_emit_ret {A B} (ev : event) (a : A) (k : A -> M B) :
  bind (emit ev >> ret a) k = let '(t, r) := k a in (ev :: t, r).
Proof. apply bind_emit_Return. Qed.

Lemma bind_emit {B} (ev : event) (k : unit -> M B) :
  bind (emit ev) k = let '(t, r) := k tt in (ev :: t, r).
Proof. unfold bind, emit. destruct (k tt); reflexivity. Qed.

Lemma bind_assoc {A B C} (m : M A) (f : A -> M B) (g : B -> M C) :
  bind (bind m f) g = bind m (fun a => bind (f a) g).
Proof.
  destruct m as [t [a|e]]; [|reflexivity].
  unfold bind. destruct (f a) as [t1 [b|e1]]; [|reflexivity].
  destruct (g b) as [t2 r2]. rewrite app_assoc. reflexivity.
Qed.

(* ===================================================================== *)
(** ** How [Webhook.post] runs, stage by stage *)
(* ===================================================================== *)

Section WebhookStages.

Variable api : api_common.
Variable cfg : config.
Variable req : request.

Lemma get_dict key items :
  Builtins.get (JDict items) (lit key) Webhook.unknown = Return (field key items).
Proof. unfold field; simpl. destruct (Builtins.assoc _ _); reflexivity. Qed.

Lemma get_not_dict v key d :
  (forall items, v <> JDict items) -> Builtins.get v key d = Raise AttributeError.
Proof. intros H. destruct v; try reflexivity. exfalso. eapply H. reflexivity. Qed.

Lemma dispatch_run j a b :
  Webhook.dispatch api j a b
  = ([EvLog INFO Webhook.received_info [PJson a; PJson b]; EvHandleSparkWebhook j],
     handle_spark_webhook api j).
Proof. reflexivity. Qed.

Lemma post_int_TypeError :
  content_length req = None -> Webhook.post api cfg req = ([], Raise TypeError).
Proof.
  unfold Webhook.post. fold (content_length req). intros ->. reflexivity.
Qed.

Lemma post_int_ValueError s :
  content_length req = Some s -> Builtins.int_of_string s = None ->
  Webhook.post api cfg req = ([], Return (error_response "Bad request" 400)).
Proof.
  unfold Webhook.post. fold (content_length req). intros -> H.
  unfold Builtins.int. rewrite H. reflexivity.
Qed.

Lemma post_int_Return n :
  Builtins.int (content_length req) = Return n ->
  Webhook.post api cfg req
  = if Webhook.too_big n (MAX_CONTENT_LENGTH cfg)
    then ([], Return (error_response "Too big" 413))
    else Webhook.verify_and_dispatch api cfg req.
Proof.
  unfold Webhook.post. fold (content_length req). intros ->. reflexivity.
Qed.

Lemma verify_json_raise e :
  json req = Raise e ->
  Webhook.verify_and_dispatch api cfg req = ([EvGetJson], Raise e).
Proof.
  intros H. unfold Webhook.verify_and_dispatch, get_json. rewrite H. reflexivity.
Qed.

Lemma verify_not_dict v :
  json req = Return v -> (forall items, v <> JDict items) ->
  Webhook.verify_and_dispatch api cfg req = ([EvGetJson], Raise AttributeError).
Proof.
  intros H Hv. unfold Webhook.verify_and_dispatch, get_json. rewrite H.
  rewrite bind_emit_Return, (get_not_dict v _ _ Hv), bind_lift_Raise.
  reflexivity.
Qed.

Lemma verify_dict items :
  json req = Return (JDict items) ->
  Webhook.verify_and_dispatch api cfg req
  = let '(t, r) := signature_check api cfg req items in (EvGetJson :: t, r).
Proof.
  intros H. unfold Webhook.verify_and_dispatch, signature_check, get_json.
  rewrite H, bind_emit_Return, !get_dict, !bind_lift_Return.
  fold (x_spark_signature req).
  destruct (SPARK_WEBHOOK_SECRET cfg) as [secret|]; [|reflexivity].
  destruct (x_spark_signature req) as [sparkhmac|]; [|reflexivity].
  unfold Builtins.bytes_utf8.
  destruct (Utf8.encode secret) as [key|]; [|reflexivity].
  rewrite bind_lift_Return. unfold get_data.
  rewrite !bind_emit_ret.
  destruct (Hmac.compare_digest _ _) as [[|]|]; reflexivity.
Qed.

End WebhookStages.

(* ===================================================================== *)
(** ** Traces *)
(* ===================================================================== *)

Lemma trace_bind {A B} (m : M A) (k : A -> M B) :
  trace (bind m k)
  = trace m ++ match outcome m with Return a => trace (k a) | Raise _ => [] end.
Proof.
  destruct m as [t [a|e]]; unfold bind, trace, outcome; simpl.
  - destruct (k a); reflexivity.
  - rewrite app_nil_r. reflexivity.
Qed.

Lemma in_trace_bind {A B} (m : M A) (k : A -> M B) ev :
  In ev (trace (bind m k)) ->
  In ev (trace m) \/ exists a, outcome m = Return a /\ In ev (trace (k a)).
Proof.
  rewrite trace_bind. intros H. apply in_app_or in H as [H|H]; [left; exact H|].
  destruct (outcome m) as [a|e]; [right; eauto | destruct H].
Qed.

Lemma outcome_bind {A B} (m : M A) (k : A -> M B) :
  outcome (bind m k)
  = match outcome m with Return a => outcome (k a) | Raise e => Raise e end.
Proof.
  destruct m as [t [a|e]]; unfold bind, outcome; simpl; [|reflexivity].
  destruct (k a); reflexivity.
Qed.

Section WebhookFacts.

Variable api : api_common.
Variable cfg : config.
Variable req : request.

Lemma verify_starts_with_get_json :
  exists t r, Webhook.verify_and_dispatch api cfg req = (EvGetJson :: t, r).
Proof.
  destruct (json req) as [v|e] eqn:Hj.
  - unfold Webhook.verify_and_dispatch, get_json. rewrite Hj, bind_emit_Return.
    match goal with |- context [let '(_, _) := ?m in _] => destruct m as [t r] end.
    eauto.
  - rewrite (verify_json_raise api cfg req e Hj). eauto.
Qed.

Lemma is_dict_dec (v : jsonval) :
  {items | v = JDict items} + {forall items, v <> JDict items}.
Proof. destruct v; try (right; intros; discriminate). left; eauto. Qed.

(** The events of the signature check on a JSON object: the only
    collaborator it calls is the webhook handler, on the parsed body, and
    where it does, the secret is unset or the header carries our digest. *)
Lemma signature_check_call items ev :
  In ev (trace (signature_check api cfg req items)) ->
  collaborator_call ev = true ->
  ev = EvHandleSparkWebhook (JDict items) /\
  (SPARK_WEBHOOK_SECRET cfg = None \/
   exists secret key,
     SPARK_WEBHOOK_SECRET cfg = Some secret /\ Utf8.encode secret = Some key /\
     headers_get req "X-Spark-Signature" = Some (Hmac.hexdigest key (data req))).
Proof.
  unfold signature_check, x_spark_signature.
  destruct (SPARK_WEBHOOK_SECRET cfg) as [secret|].
  - destruct (headers_get req "X-Spark-Signature") as [sparkhmac|] eqn:Hs.
    + destruct (Utf8.encode secret) as [key|] eqn:Hk; [|intros []].
      unfold Hmac.compare_digest.
      destruct (_ && _); [|simpl; intros [<-|[<-|[]]]; discriminate].
      destruct (String.eqb _ _) eqn:Heq.
      * apply String.eqb_eq in Heq. rewrite dispatch_run. simpl.
        intros [<-|[<-|[<-|[<-|[]]]]]; try discriminate.
        intros _. split; [reflexivity|].
        right. exists secret, key. rewrite Heq. auto.
      * simpl. intros [<-|[<-|[<-|[<-|[]]]]]; discriminate.
    + simpl. intros [<-|[]]; discriminate.
  - rewrite dispatch_run. simpl. intros [<-|[<-|[]]]; try discriminate. auto.
Qed.

End WebhookFacts.

(* ===================================================================== *)
(** ** The digest is ASCII text *)
(* ===================================================================== *)

Lemma be_bytes_octets n x : Forall octet (Sha1.be_bytes n x).
Proof.
  unfold Sha1.be_bytes. apply List.Forall_forall. intros b Hb.
  apply in_map_iff in Hb as [i [<- _]].
  change 255 with (Z.ones 8). rewrite Z.land_ones by lia.
  unfold octet. change 256 with (2 ^ 8). apply Z.mod_pos_bound. lia.
Qed.

Lemma sha1_digest_octets m : Forall octet (Sha1.digest m).
Proof.
  unfold Sha1.digest.
  destruct (Sha1.blocks _ _ _) as [[[[h0 h1] h2] h3] h4].
  repeat (apply Forall_app; split); apply be_bytes_octets.
Qed.

Lemma hex_digit_ascii d :
  0 <= d < 16 -> (N_of_ascii (Hmac.hex_digit d) <? 128)%N = true.
Proof.
  intros H.
  assert (d = 0 \/ d = 1 \/ d = 2 \/ d = 3 \/ d = 4 \/ d = 5 \/ d = 6 \/ d = 7 \/
          d = 8 \/ d = 9 \/ d = 10 \/ d = 11 \/ d = 12 \/ d = 13 \/ d = 14 \/
          d = 15) as Hd by lia.
  repeat (destruct Hd as [-> | Hd]; [reflexivity|]). subst. reflexivity.
Qed.

Lemma hex_ascii l : Forall octet l -> Hmac.is_ascii (Hmac.hex l) = true.
Proof.
  unfold Hmac.is_ascii. induction 1 as [|x l Hx _ IH]; [reflexivity|].
  unfold octet in Hx. cbn [Hmac.hex list_ascii_of_string forallb].
  rewrite IH, !hex_digit_ascii; [reflexivity| |].
  - apply Z.mod_pos_bound. lia.
  - split; [apply Z.div_pos; lia | apply Z.div_lt_upper_bound; lia].
Qed.

Lemma hexdigest_ascii key msg : Hmac.is_ascii (Hmac.hexdigest key msg) = true.
Proof. apply hex_ascii, sha1_digest_octets. Qed.

(** On a signature that is our digest the comparison answers [True]; on
    any other ASCII text it answers [False]. *)
Lemma compare_digest_same key msg :
  Hmac.compare_digest (Hmac.hexdigest key msg) (Hmac.hexdigest key msg) = Some true.
Proof.
  unfold Hmac.compare_digest. rewrite hexdigest_ascii, String.eqb_refl. reflexivity.
Qed.

Lemma compare_digest_other key msg s :
  Hmac.is_ascii s = true -> s <> Hmac.hexdigest key msg ->
  Hmac.compare_digest (Hmac.hexdigest key msg) s = Some false.
Proof.
  intros Ha Hne. unfold Hmac.compare_digest. rewrite hexdigest_ascii, Ha. simpl.
  destruct (String.eqb _ _) eqn:E; [|reflexivity].
  apply String.eqb_eq in E. congruence.
Qed.

Lemma compare_digest_non_ascii a s :
  Hmac.is_ascii s = false -> Hmac.compare_digest a s = None.
Proof.
  intros H. unfold Hmac.compare_digest. rewrite H, andb_false_r. reflexivity.
Qed.

(* ===================================================================== *)
(** ** How [Alert.post] and [Ping.get] run *)
(* ===================================================================== *)

(** Splits a hypothesis [In ev (trace m)] along the binds of [m]. *)
Ltac split_trace H :=
  repeat match type of H with
  | In _ (trace (bind _ _)) =>
      let a := fresh "a" in let Ha := fresh "Ha" in
      apply in_trace_bind in H as [H | [a [Ha H]]]
  | In _ (trace (if ?b then _ else _)) => destruct b
  | In _ (trace (ret _)) => destruct H
  | In _ (trace (raise _)) => destruct H
  | In _ (trace (lift _)) => destruct H
  | In _ (trace (emit _)) => destruct H as [H | []]
  | In _ (trace (logger _ _ _)) => destruct H as [H | []]
  end.

Section AlertFacts.

Variable api : api_common.
Variable req : request.

Lemma parse_trace a ev : In ev (trace (reqparse.parse a req)) -> ev = EvGetJson.
Proof.
  unfold reqparse.parse, reqparse.source, get_json. intros H.
  split_trace H; auto.
Qed.

Lemma parse_args_trace args ev :
  In ev (trace (reqparse.parse_args args req)) -> ev = EvGetJson.
Proof.
  induction args as [|a args IH]; simpl; intros H; [destruct H|].
  split_trace H; eauto using parse_trace.
Qed.

(** [post_body] reads the body, logs, and calls one collaborator, the
    message sender; [get_body] logs and calls [ping]. *)
Lemma alert_body_trace ev :
  In ev (trace (Alert.post_body api req)) -> collaborator_call ev = true ->
  exists to subject message, ev = EvSendSparkAlertMessage to subject message.
Proof.
  unfold Alert.post_body. intros H Hc.
  split_trace H; subst; try discriminate; eauto.
  apply parse_args_trace in H. subst. discriminate.
Qed.

Lemma ping_body_trace ev :
  In ev (trace (Ping.get_body api req)) -> collaborator_call ev = true ->
  ev = EvPing API_VERSION.
Proof.
  unfold Ping.get_body. intros H Hc.
  split_trace H; subst; try discriminate; eauto.
Qed.

Variable cfg : config.

Lemma requires_api_token_trace f ev :
  In ev (trace (requires_api_token api cfg f req)) ->
  TokenAuthGuard (headers_get req (token_header api)) (apiToken cfg) = Authorized
  /\ In ev (trace (f req)).
Proof.
  unfold requires_api_token.
  destruct (TokenAuthGuard _ _); [auto | intros []].
Qed.

Lemma requires_api_token_authorized f :
  TokenAuthGuard (headers_get req (token_header api)) (apiToken cfg) = Authorized ->
  requires_api_token api cfg f req = f req.
Proof. unfold requires_api_token. intros ->. reflexivity. Qed.

(** [Argument.parse] over a JSON object body. *)
Lemma parse_dict a items :
  json req = Return (JDict items) ->
  reqparse.parse a req
  = match Builtins.assoc (lit (reqparse.name a)) items with
    | Some v => ([EvGetJson], Return (reqparse.convert v))
    | None =>
        if reqparse.required a
        then ([EvGetJson], Raise (reqparse.abort_validation a))
        else ([EvGetJson], Return (PJson JNone))
    end.
Proof.
  intros H. unfold reqparse.parse, reqparse.source, get_json.
  rewrite H, bind_assoc, bind_emit_Return, bind_ret.
  unfold reqparse.contains, Builtins.get.
  destruct (Builtins.assoc _ _); [reflexivity|].
  destruct (reqparse.required a); reflexivity.
Qed.

Lemma post_body_dict items :
  json req = Return (JDict items) ->
  Alert.post_body api req
  = match Builtins.assoc (lit "to") items with
    | None => ([EvGetJson], Raise (reqparse.abort_validation arg_to))
    | Some to =>
        match Builtins.assoc (lit "subject") items with
        | None => ([EvGetJson; EvGetJson], Raise (reqparse.abort_validation arg_subject))
        | Some subject =>
            let message := message_of items in
            ([EvGetJson; EvGetJson; EvGetJson;
              EvLog INFO "create alert: to:{} subject:{}"
                [reqparse.convert to; reqparse.convert subject];
              EvSendSparkAlertMessage (reqparse.convert to)
                (reqparse.convert subject) (reqparse.convert message)],
             send_spark_alert_message api (reqparse.convert to)
               (reqparse.convert subject) (reqparse.convert message))
        end
    end.
Proof.
  intros H. unfold Alert.post_body, Alert.parser, reqparse.parse_args.
  rewrite !(parse_dict _ items H). cbn [reqparse.name reqparse.required].
  destruct (Builtins.assoc (lit "to") items) as [to|]; [|reflexivity].
  destruct (Builtins.assoc (lit "subject") items) as [subject|]; [|reflexivity].
  unfold message_of.
  destruct (Builtins.assoc (lit "message") items) as [message|]; reflexivity.
Qed.

End AlertFacts.

Section WebhookClaims.

Variable api : api_common.
Variable cfg : config.
Variable req : request.

Lemma post_passes n :
  Builtins.int (content_length req) = Return n ->
  Webhook.too_big n (MAX_CONTENT_LENGTH cfg) = false ->
  Webhook.post api cfg req = Webhook.verify_and_dispatch api cfg req.
Proof. intros Hn Hs. rewrite (post_int_Return api cfg req n Hn), Hs. reflexivity. Qed.

Lemma post_checks_dict n items :
  Builtins.int (content_length req) = Return n ->
  Webhook.too_big n (MAX_CONTENT_LENGTH cfg) = false ->
  json req = Return (JDict items) ->
  Webhook.post api cfg req
  = let '(t, r) := signature_check api cfg req items in (EvGetJson :: t, r).
Proof. intros Hn Hs Hj. rewrite (post_passes n Hn Hs). apply verify_dict, Hj. Qed.

End WebhookClaims.

(* ===================================================================== *)
(** ** The length checks *)
(* ===================================================================== *)

(** C5. A POST /webhook request without a Content-Length header does not
    get the 400 "Bad request" response: [int(None)] raises [TypeError],
    which the [except ValueError] clause does not catch, and the exception
    leaves the handler before anything is read, checked or dispatched. *)
Theorem webhook_missing_content_length api cfg req :
  content_length req = None ->
  Webhook.post api cfg req = ([], Raise TypeError).
Proof. apply post_int_TypeError. Qed.

Lemma webhook_missing_content_length_witness :
  Webhook.post echo_api cfg_secret no_content_length = ([], Raise TypeError).
Proof.
  apply (webhook_missing_content_length echo_api cfg_secret no_content_length).
  vm_compute. reflexivity.
Defined.

(** C6. A POST /webhook request without a Content-Length header is not
    let through as "length unknown": whatever the configured maximum, the
    handler raises [TypeError] at [int(None)] with no event at all, so the
    test [cl and cl > MAX_CONTENT_LENGTH], which would let a missing
    length pass, is never evaluated and the stage of the signature check,
    which starts with [get_json], is never reached. *)
Theorem webhook_absent_length_not_passed api cfg req :
  content_length req = None ->
  outcome (Webhook.post api cfg req) = Raise TypeError /\
  (forall ev, ~ In ev (trace (Webhook.post api cfg req))) /\
  Webhook.post api cfg req <> Webhook.verify_and_dispatch api cfg req.
Proof.
  intros Hc. rewrite (post_int_TypeError api cfg req Hc). repeat split.
  - intros ev [].
  - destruct (verify_starts_with_get_json api cfg req) as [t [r ->]].
    discriminate.
Qed.

Lemma webhook_absent_length_not_passed_witness :
  outcome (Webhook.post echo_api cfg_open no_content_length) = Raise TypeError /\
  (forall ev, ~ In ev (trace (Webhook.post echo_api cfg_open no_content_length))) /\
  Webhook.post echo_api cfg_open no_content_length
  <> Webhook.verify_and_dispatch echo_api cfg_open no_content_length.
Proof.
  apply (webhook_absent_length_not_passed echo_api cfg_open no_content_length).
  vm_compute. reflexivity.
Defined.

(** X18. A declared length that parses to 0, or to a number not above the
    configured maximum, passes the size check: the handler goes on with
    the rest of [post], whose first step is [get_json]. *)
Theorem webhook_size_check_passes api cfg req n :
  Builtins.int (content_length req) = Return n ->
  n = 0 \/ n <= MAX_CONTENT_LENGTH cfg ->
  Webhook.post api cfg req = Webhook.verify_and_dispatch api cfg req /\
  exists t r, Webhook.post api cfg req = (EvGetJson :: t, r).
Proof.
  intros Hn Hs.
  assert (Webhook.too_big n (MAX_CONTENT_LENGTH cfg) = false) as Hb.
  { unfold Webhook.too_big. destruct Hs as [-> | Hs]; [reflexivity|].
    apply andb_false_iff. right. rewrite Z.gtb_ltb. apply Z.ltb_ge. exact Hs. }
  rewrite (post_passes api cfg req n Hn Hb). split; [reflexivity|].
  apply verify_starts_with_get_json.
Qed.

Lemma webhook_size_check_passes_witness :
  Webhook.post echo_api cfg_secret signed_request
  = Webhook.verify_and_dispatch echo_api cfg_secret signed_request /\
  exists t r, Webhook.post echo_api cfg_secret signed_request = (EvGetJson :: t, r).
Proof.
  apply (webhook_size_check_passes echo_api cfg_secret signed_request 28).
  - vm_compute. reflexivity.
  - right. simpl. lia.
Defined.

(** C7, as the code has it. With the header present, the handler answers
    400 "Bad request" at once, before it reads anything, exactly when
    [int] rejects the header's text. *)
Theorem webhook_malformed_length api cfg req s :
  content_length req = Some s ->
  Webhook.post api cfg req = ([], Return (error_response "Bad request" 400))
  <-> Builtins.int_of_string s = None.
Proof.
  intros Hs. split.
  - intros Hp. destruct (Builtins.int_of_string s) as [n|] eqn:Hi; [|reflexivity].
    exfalso.
    assert (Builtins.int (content_length req) = Return n) as Hn.
    { rewrite Hs. unfold Builtins.int. rewrite Hi. reflexivity. }
    rewrite (post_int_Return api cfg req n Hn) in Hp.
    destruct (Webhook.too_big _ _); [discriminate|].
    destruct (verify_starts_with_get_json api cfg req) as [t [r Hv]].
    rewrite Hv in Hp. discriminate.
  - apply post_int_ValueError. exact Hs.
Qed.

Lemma webhook_malformed_length_witness :
  Webhook.post echo_api cfg_secret (with_content_length "abc" payload_text (Return payload))
  = ([], Return (error_response "Bad request" 400)).
Proof.
  apply (webhook_malformed_length echo_api cfg_secret _ "abc").
  - vm_compute. reflexivity.
  - vm_compute. reflexivity.
Defined.

(** C7 as stated fails on a negative length: [int("-5")] is [-5], the size
    check lets it through, and the handler goes on to read the body. *)
Lemma negative_length_accepted :
  Builtins.int (Some "-5") = Return (-5) /\
  Webhook.post echo_api cfg_open (with_content_length "-5" [] (Raise bad_request))
  = ([EvGetJson], Raise bad_request) /\
  Webhook.post echo_api cfg_open (with_content_length "-5" payload_text (Return payload))
  = ([EvGetJson;
      EvLog INFO Webhook.received_info [PJson (JStr (lit "w1")); PJson (JStr (lit "hook"))];
      EvHandleSparkWebhook payload],
     Return (PTuple [PJson payload; PJson (JInt 200)])).
Proof. vm_compute. repeat split. Qed.

(** C8. When the parsed declared length exceeds the configured maximum
    (a non-negative number of bytes), the handler answers 413 "Too big"
    with no event at all: the body is not read and no digest is computed. *)
Theorem webhook_too_large api cfg req n :
  0 <= MAX_CONTENT_LENGTH cfg ->
  Builtins.int (content_length req) = Return n ->
  n > MAX_CONTENT_LENGTH cfg ->
  Webhook.post api cfg req = ([], Return (error_response "Too big" 413)).
Proof.
  intros Hm Hn Hgt. rewrite (post_int_Return api cfg req n Hn).
  unfold Webhook.too_big.
  replace (n =? 0) with false by (symmetry; apply Z.eqb_neq; lia).
  replace (n >? MAX_CONTENT_LENGTH cfg) with true
    by (symmetry; rewrite Z.gtb_ltb; apply Z.ltb_lt; lia).
  reflexivity.
Qed.

Lemma webhook_too_large_witness :
  Webhook.post echo_api
    {| MAX_CONTENT_LENGTH := 10; SPARK_WEBHOOK_SECRET := Some (lit "s3cret");
       apiToken := "t0ken" |}
    (with_content_length "50" payload_text (Return payload))
  = ([], Return (error_response "Too big" 413)).
Proof.
  apply (webhook_too_large echo_api _ _ 50).
  - simpl. lia.
  - vm_compute. reflexivity.
  - simpl. lia.
Defined.

(* ===================================================================== *)
(** ** The signature check *)
(* ===================================================================== *)

(** C10. Past the length checks the handler first parses the body and
    reads [id] and [name]: when [get_json] raises, or gives anything but a
    JSON object, the handler raises right after [get_json] (the exception
    of [get_json], or [AttributeError] from [reqjson.get]), whatever the
    secret and the signature header are, so no 403 is answered; and a
    digest is only ever computed after [get_json] gave a JSON object. *)
Theorem webhook_parses_before_signature api cfg req n :
  Builtins.int (content_length req) = Return n ->
  Webhook.too_big n (MAX_CONTENT_LENGTH cfg) = false ->
  (forall e, json req = Raise e ->
     Webhook.post api cfg req = ([EvGetJson], Raise e)) /\
  (forall v, json req = Return v -> (forall items, v <> JDict items) ->
     Webhook.post api cfg req = ([EvGetJson], Raise AttributeError)) /\
  (In EvHmac (trace (Webhook.post api cfg req)) ->
     exists items t, json req = Return (JDict items) /\
       trace (Webhook.post api cfg req) = EvGetJson :: t).
Proof.
  intros Hn Hs. rewrite (post_passes api cfg req n Hn Hs). repeat split.
  - apply verify_json_raise.
  - apply verify_not_dict.
  - destruct (json req) as [v|e] eqn:Hj.
    + destruct (is_dict_dec v) as [[items ->]|Hv].
      * intros _. exists items. rewrite (verify_dict api cfg req items Hj).
        destruct (signature_check _ _ _ _) as [t r]. eauto.
      * rewrite (verify_not_dict api cfg req v Hj Hv). simpl. intuition discriminate.
    + rewrite (verify_json_raise api cfg req e Hj). simpl. intuition discriminate.
Qed.

Lemma webhook_parses_before_signature_witness :
  Webhook.post echo_api cfg_secret null_body = ([EvGetJson], Raise AttributeError).
Proof.
  refine (proj1 (proj2 (webhook_parses_before_signature echo_api cfg_secret
                          null_body 4 _ _)) JNone _ _).
  - vm_compute. reflexivity.
  - vm_compute. reflexivity.
  - reflexivity.
  - intros items. discriminate.
Defined.

(** C2, as the code has it. With no secret configured, a request that
    passes the length checks and whose body [get_json] parses to a JSON
    object is dispatched to the webhook handler, whatever the body bytes
    and the signature header are: the body is not read again and no digest
    is computed. *)
Theorem webhook_no_secret api cfg req n items :
  SPARK_WEBHOOK_SECRET cfg = None ->
  Builtins.int (content_length req) = Return n ->
  Webhook.too_big n (MAX_CONTENT_LENGTH cfg) = false ->
  json req = Return (JDict items) ->
  Webhook.post api cfg req
  = ([EvGetJson;
      EvLog INFO Webhook.received_info
        [PJson (field "id" items); PJson (field "name" items)];
      EvHandleSparkWebhook (JDict items)],
     handle_spark_webhook api (JDict items)).
Proof.
  intros Hk Hn Hs Hj. rewrite (post_checks_dict api cfg req n items Hn Hs Hj).
  unfold signature_check. rewrite Hk, dispatch_run. reflexivity.
Qed.

Lemma webhook_no_secret_witness :
  Webhook.post echo_api cfg_open non_ascii_signature
  = ([EvGetJson;
      EvLog INFO Webhook.received_info [PJson (JStr (lit "w1")); PJson (JStr (lit "hook"))];
      EvHandleSparkWebhook payload],
     Return (PTuple [PJson payload; PJson (JInt 200)])).
Proof.
  apply (webhook_no_secret echo_api cfg_open non_ascii_signature 28 payload_items).
  - reflexivity.
  - vm_compute. reflexivity.
  - vm_compute. reflexivity.
  - reflexivity.
Defined.

(** C2 as stated fails on a body that is JSON but no object: [null]
    passes the length checks and is not dispatched. *)
Lemma no_secret_null_body_not_dispatched :
  SPARK_WEBHOOK_SECRET cfg_open = None /\
  Builtins.int (content_length null_body) = Return 4 /\
  Webhook.too_big 4 (MAX_CONTENT_LENGTH cfg_open) = false /\
  Webhook.post echo_api cfg_open null_body = ([EvGetJson], Raise AttributeError).
Proof. vm_compute. repeat split. Qed.

(** C1, as the code has it. For a request that reaches the signature
    check (it passed the length checks and its body parsed to a JSON
    object) under a secret that UTF-8 can encode: when the signature header
    is the lowercase hexadecimal HMAC-SHA1 of the raw body, the handler
    dispatches to the webhook handler and returns its result; when the
    header is absent, or is ASCII text other than that digest, it answers
    403 "Unauthorized" and calls no collaborator. *)
Theorem signature_round_trip api cfg req n items secret key :
  Builtins.int (content_length req) = Return n ->
  Webhook.too_big n (MAX_CONTENT_LENGTH cfg) = false ->
  json req = Return (JDict items) ->
  SPARK_WEBHOOK_SECRET cfg = Some secret ->
  Utf8.encode secret = Some key ->
  (x_spark_signature req = Some (Hmac.hexdigest key (data req)) ->
     Webhook.post api cfg req
     = ([EvGetJson; EvGetData; EvHmac;
         EvLog INFO Webhook.received_info
           [PJson (field "id" items); PJson (field "name" items)];
         EvHandleSparkWebhook (JDict items)],
        handle_spark_webhook api (JDict items))) /\
  (x_spark_signature req = None \/
   (exists s, x_spark_signature req = Some s /\ Hmac.is_ascii s = true /\
              s <> Hmac.hexdigest key (data req)) ->
     outcome (Webhook.post api cfg req) = Return (error_response "Unauthorized" 403) /\
     forall ev, In ev (trace (Webhook.post api cfg req)) -> collaborator_call ev = false).
Proof.
  intros Hn Hs Hj Hk He. rewrite (post_checks_dict api cfg req n items Hn Hs Hj).
  unfold signature_check, x_spark_signature. rewrite Hk, He. split.
  - intros ->. rewrite compare_digest_same, dispatch_run. reflexivity.
  - intros [-> | [s [-> [Ha Hne]]]].
    + split; [reflexivity|]. simpl. intros ev [<-|[<-|[]]]; reflexivity.
    + rewrite (compare_digest_other key (data req) s Ha Hne).
      split; [reflexivity|]. simpl.
      intros ev [<-|[<-|[<-|[<-|[<-|[]]]]]]; reflexivity.
Qed.

Lemma signature_round_trip_witness :
  Webhook.post echo_api cfg_secret signed_request
  = ([EvGetJson; EvGetData; EvHmac;
      EvLog INFO Webhook.received_info [PJson (JStr (lit "w1")); PJson (JStr (lit "hook"))];
      EvHandleSparkWebhook payload],
     Return (PTuple [PJson payload; PJson (JInt 200)])).
Proof.
  refine (proj1 (signature_round_trip echo_api cfg_secret signed_request 28
                   payload_items (lit "s3cret") (ascii_bytes "s3cret") _ _ _ _ _) _).
  - vm_compute. reflexivity.
  - vm_compute. reflexivity.
  - reflexivity.
  - reflexivity.
  - vm_compute. reflexivity.
  - vm_compute. reflexivity.
Defined.

(** C1 as stated fails twice: the right signature over a body that is not
    JSON does not get past the check, because the body is parsed first;
    and a signature that differs from the digest by a character outside
    ASCII is not answered with 403, because [compare_digest] raises. *)
Lemma signature_law_fails :
  (x_spark_signature signed_garbage
   = Some (Hmac.hexdigest (ascii_bytes "s3cret") (data signed_garbage)) /\
   Webhook.post echo_api cfg_secret signed_garbage = ([EvGetJson], Raise bad_request)) /\
  (x_spark_signature non_ascii_signature
   <> Some (Hmac.hexdigest (ascii_bytes "s3cret") (data non_ascii_signature)) /\
   Webhook.post echo_api cfg_secret non_ascii_signature
   = ([EvGetJson; EvGetData; EvHmac], Raise TypeError)).
Proof. vm_compute. repeat split. discriminate. Qed.

(* ===================================================================== *)
(** ** The guard chains *)
(* ===================================================================== *)

Lemma webhook_call api cfg req ev :
  In ev (trace (Webhook.post api cfg req)) ->
  collaborator_call ev = true ->
  exists p, ev = EvHandleSparkWebhook p /\ json req = Return p /\
            webhook_authorized cfg req.
Proof.
  destruct (Builtins.int (content_length req)) as [n|e] eqn:Hn.
  - rewrite (post_int_Return api cfg req n Hn).
    destruct (Webhook.too_big n (MAX_CONTENT_LENGTH cfg)) eqn:Hs; [intros []|].
    destruct (json req) as [v|e] eqn:Hj.
    + destruct (is_dict_dec v) as [[items ->]|Hv].
      * rewrite (verify_dict api cfg req items Hj).
        destruct (signature_check api cfg req items) as [t r] eqn:Hc.
        simpl. intros [<-|Hin] Hev; [discriminate|].
        assert (In ev (trace (signature_check api cfg req items))) as Hin'
          by (rewrite Hc; exact Hin).
        destruct (signature_check_call api cfg req items ev Hin' Hev) as [-> Hk].
        exists (JDict items). repeat split. exists n. auto.
      * rewrite (verify_not_dict api cfg req v Hj Hv).
        simpl. intros [<-|[]]; discriminate.
    + rewrite (verify_json_raise api cfg req e Hj).
      simpl. intros [<-|[]]; discriminate.
  - unfold Webhook.post. fold (content_length req). rewrite Hn.
    destruct e; intros [].
Qed.

(** C3. Whatever the resource and the request, a collaborator is called
    only behind its guard chain: [handle_spark_webhook] only by the webhook
    resource, on the parsed body, after the length checks passed and with
    the secret unset or the signature header equal to the computed HMAC;
    [send_spark_alert_message] only by the alert resource and [ping] only
    by the ping resource, both only when the token guard authorized. *)
Theorem guard_chain_invariant api cfg r req ev :
  In ev (trace (dispatch_request api cfg r req)) ->
  collaborator_call ev = true ->
  match ev with
  | EvHandleSparkWebhook p =>
      r = WebhookR /\ json req = Return p /\ webhook_authorized cfg req
  | EvSendSparkAlertMessage _ _ _ => r = AlertR /\ token_authorized api cfg req
  | EvPing v => r = PingR /\ v = API_VERSION /\ token_authorized api cfg req
  | _ => False
  end.
Proof.
  intros Hin Hev. destruct r; simpl in Hin.
  - apply requires_api_token_trace in Hin as [Ha Hin].
    rewrite (ping_body_trace api req ev Hin Hev). auto.
  - apply requires_api_token_trace in Hin as [Ha Hin].
    destruct (alert_body_trace api req ev Hin Hev) as [to [subject [message ->]]].
    auto.
  - destruct (webhook_call api cfg req ev Hin Hev) as [p [-> [Hj Hw]]]. auto.
Qed.

Lemma guard_chain_invariant_witness :
  json signed_request = Return payload /\ webhook_authorized cfg_secret signed_request.
Proof.
  refine (proj2 (guard_chain_invariant echo_api cfg_secret WebhookR signed_request
                   (EvHandleSparkWebhook payload) _ _)).
  - vm_compute. tauto.
  - reflexivity.
Defined.

(** C4 as stated fails: a validation failure of [parse_args] and a JSON
    decoding failure of [get_json] leave the handlers as HTTP exceptions,
    and the body that goes with them is keyed [message], not [error]. *)
Lemma validation_errors_are_raised :
  token_authorized echo_api cfg_open
    (alert_request (JDict [(lit "subject", JStr (lit "fire"))])) /\
  Alert.post echo_api cfg_open
    (alert_request (JDict [(lit "subject", JStr (lit "fire"))]))
  = ([EvGetJson],
     Raise (HTTPException 400
              (JDict [(lit "message",
                       JDict [(lit "to",
                               JStr (lit "Identifier of person or Spark space to send the alert to. Required."))])]))) /\
  Webhook.post echo_api cfg_open (with_content_length "8" (ascii_bytes "not json") (Raise bad_request))
  = ([EvGetJson], Raise bad_request).
Proof. vm_compute. repeat split. Qed.

(* ===================================================================== *)
(** ** The alert resource *)
(* ===================================================================== *)

(** The first argument, [to], where it is missing from the body. *)
Lemma parse_to_absent req body :
  json req = Return body -> absent "to" body ->
  reqparse.parse arg_to req = ([EvGetJson], Raise (reqparse.abort_validation arg_to)).
Proof.
  intros Hj Hab. unfold reqparse.parse, reqparse.source, get_json.
  rewrite Hj, bind_assoc, bind_emit_Return, bind_ret.
  destruct body as [|b|n|bits|s|l|items]; try (exfalso; exact Hab).
  - reflexivity.
  - unfold reqparse.contains. rewrite bind_lift_Return.
    cbv [arg_to Alert.parser nth reqparse.name]. unfold absent in Hab.
    rewrite Hab. reflexivity.
  - unfold reqparse.contains. rewrite bind_lift_Return.
    cbv [arg_to Alert.parser nth reqparse.name]. unfold absent in Hab.
    rewrite Hab. reflexivity.
  - unfold reqparse.contains. rewrite bind_lift_Return.
    cbv [arg_to Alert.parser nth reqparse.name]. unfold absent in Hab.
    rewrite Hab. reflexivity.
Qed.

Lemma post_body_absent_to api req body :
  json req = Return body -> absent "to" body ->
  Alert.post_body api req = ([EvGetJson], Raise (reqparse.abort_validation arg_to)).
Proof.
  intros Hj Hab. unfold Alert.post_body, Alert.parser, reqparse.parse_args.
  change ({| reqparse.name := "to"; reqparse.required := true;
             reqparse.help := "Identifier of person or Spark space to send the alert to. Required." |})
    with arg_to.
  rewrite (parse_to_absent req body Hj Hab). reflexivity.
Qed.

(** C9, as the code has it. For a token-authorized POST /alert on which
    [get_json] gives a body: when [to] is missing from the body (no body,
    a JSON object without the key, an array or a text in which the parser
    does not find it), the handler aborts with the validation error of
    [to], status 400, after one [get_json] and without calling the message
    sender; when the body is a JSON object with [to] and without
    [subject], it aborts likewise with the validation error of [subject];
    when the body is a JSON object with both keys, it calls
    [send_spark_alert_message(to, subject, message)] once and returns its
    result as it is, where each value went through the parser's conversion
    ([message] is [None] when absent): a string is passed as it is and
    [null] as [None]. *)
Theorem alert_post_validates api cfg req body :
  token_authorized api cfg req ->
  json req = Return body ->
  (absent "to" body ->
     Alert.post api cfg req
     = ([EvGetJson],
        Raise (validation_error "to"
                 "Identifier of person or Spark space to send the alert to. Required."))) /\
  (forall items to,
     body = JDict items ->
     Builtins.assoc (lit "to") items = Some to ->
     Builtins.assoc (lit "subject") items = None ->
     Alert.post api cfg req
     = ([EvGetJson; EvGetJson],
        Raise (validation_error "subject"
                 "The subject (ie, first line) of text sent to the recipient. Required."))) /\
  (forall items to subject,
     body = JDict items ->
     Builtins.assoc (lit "to") items = Some to ->
     Builtins.assoc (lit "subject") items = Some subject ->
     Alert.post api cfg req
     = ([EvGetJson; EvGetJson; EvGetJson;
         EvLog INFO "create alert: to:{} subject:{}"
           [reqparse.convert to; reqparse.convert subject];
         EvSendSparkAlertMessage (reqparse.convert to) (reqparse.convert subject)
           (reqparse.convert (message_of items))],
        send_spark_alert_message api (reqparse.convert to)
          (reqparse.convert subject) (reqparse.convert (message_of items)))) /\
  (forall s, reqparse.convert (JStr s) = PJson (JStr s)) /\
  reqparse.convert JNone = PJson JNone.
Proof.
  intros Ha Hj. unfold Alert.post.
  rewrite (requires_api_token_authorized api req cfg _ Ha).
  repeat split.
  - intros Hab. rewrite (post_body_absent_to api req body Hj Hab). reflexivity.
  - intros items to -> Ht Hs.
    rewrite (post_body_dict api req items Hj), Ht, Hs. reflexivity.
  - intros items to subject -> Ht Hs.
    rewrite (post_body_dict api req items Hj), Ht, Hs. reflexivity.
Qed.

Lemma alert_post_validates_witness :
  Alert.post echo_api cfg_open
    (alert_request (JDict [(lit "to", JStr (lit "room1")); (lit "subject", JStr (lit "fire"))]))
  = ([EvGetJson; EvGetJson; EvGetJson;
      EvLog INFO "create alert: to:{} subject:{}"
        [PJson (JStr (lit "room1")); PJson (JStr (lit "fire"))];
      EvSendSparkAlertMessage (JStr (lit "room1")) (JStr (lit "fire")) JNone],
     Return (PTuple [PJson (JStr (lit "room1")); PJson (JStr (lit "fire")); PJson JNone])).
Proof.
  refine (proj1 (proj2 (proj2 (alert_post_validates echo_api cfg_open _ _ _ _)))
            [(lit "to", JStr (lit "room1")); (lit "subject", JStr (lit "fire"))]
            (JStr (lit "room1")) (JStr (lit "fire")) _ _ _).
  - vm_compute. reflexivity.
  - reflexivity.
  - reflexivity.
  - vm_compute. reflexivity.
  - vm_compute. reflexivity.
Defined.

(** C9 as stated fails on a value that is no string: [type=str] converts,
    it does not reject, so [to: 5] reaches the message sender as ['5'],
    and [to: null] as [None].  And where the body is a JSON number, in
    which [to] is missing as well, the parser's membership test raises
    [TypeError] and no validation error is produced. *)
Lemma alert_non_string_is_sent :
  token_authorized echo_api cfg_open
    (alert_request (JDict [(lit "to", JInt 5); (lit "subject", JStr (lit "fire"))])) /\
  Alert.post echo_api cfg_open
    (alert_request (JDict [(lit "to", JInt 5); (lit "subject", JStr (lit "fire"))]))
  = ([EvGetJson; EvGetJson; EvGetJson;
      EvLog INFO "create alert: to:{} subject:{}"
        [PJson (JStr (lit "5")); PJson (JStr (lit "fire"))];
      EvSendSparkAlertMessage (JStr (lit "5")) (JStr (lit "fire")) JNone],
     Return (PTuple [PJson (JStr (lit "5")); PJson (JStr (lit "fire")); PJson JNone])) /\
  Alert.post echo_api cfg_open
    (alert_request (JDict [(lit "to", JNone); (lit "subject", JStr (lit "fire"))]))
  = ([EvGetJson; EvGetJson; EvGetJson;
      EvLog INFO "create alert: to:{} subject:{}"
        [PJson JNone; PJson (JStr (lit "fire"))];
      EvSendSparkAlertMessage JNone (JStr (lit "fire")) JNone],
     Return (PTuple [PJson JNone; PJson (JStr (lit "fire")); PJson JNone])) /\
  Alert.post echo_api cfg_open (alert_request (JInt 5)) = ([EvGetJson], Raise TypeError).
Proof. vm_compute. repeat split. Qed.


(* ===================================================================== *)
(** ** Every run of [Webhook.post], case by case *)
(* ===================================================================== *)

(** The six ways the signature check on a JSON object can go. *)
Lemma signature_check_cases api cfg req items :
  let whid := PJson (field "id" items) in
  let whname := PJson (field "name" items) in
  let run := signature_check api cfg req items in
  (SPARK_WEBHOOK_SECRET cfg = None /\
   run = ([EvLog INFO Webhook.received_info [whid; whname];
           EvHandleSparkWebhook (JDict items)],
          handle_spark_webhook api (JDict items))) \/
  (exists secret, SPARK_WEBHOOK_SECRET cfg = Some secret /\
   x_spark_signature req = None /\
   run = ([EvLog WARNING Webhook.no_signature_warning [whid; whname]],
          Return (error_response "Unauthorized" 403))) \/
  (exists secret s, SPARK_WEBHOOK_SECRET cfg = Some secret /\
   x_spark_signature req = Some s /\ Utf8.encode secret = None /\
   run = ([], Raise UnicodeEncodeError)) \/
  (exists secret s key, SPARK_WEBHOOK_SECRET cfg = Some secret /\
   x_spark_signature req = Some s /\ Utf8.encode secret = Some key /\
   Hmac.is_ascii s = false /\
   run = ([EvGetData; EvHmac], Raise TypeError)) \/
  (exists secret s key, SPARK_WEBHOOK_SECRET cfg = Some secret /\
   x_spark_signature req = Some s /\ Utf8.encode secret = Some key /\
   Hmac.is_ascii s = true /\ s <> Hmac.hexdigest key (data req) /\
   run = ([EvGetData; EvHmac;
           EvLog WARNING Webhook.mismatch_warning [whid; whname];
           EvLog DEBUG Webhook.mismatch_debug
             [PJson (JStr (lit s));
              PJson (JStr (lit (Hmac.hexdigest key (data req))))]],
          Return (error_response "Unauthorized" 403))) \/
  (exists secret key, SPARK_WEBHOOK_SECRET cfg = Some secret /\
   x_spark_signature req = Some (Hmac.hexdigest key (data req)) /\
   Utf8.encode secret = Some key /\
   run = ([EvGetData; EvHmac;
           EvLog INFO Webhook.received_info [whid; whname];
           EvHandleSparkWebhook (JDict items)],
          handle_spark_webhook api (JDict items))).
Proof.
  cbv zeta. unfold signature_check.
  destruct (SPARK_WEBHOOK_SECRET cfg) as [secret|];
    [|left; split; [reflexivity | apply dispatch_run]].
  right. destruct (x_spark_signature req) as [s|];
    [|left; exists secret; repeat split].
  right. destruct (Utf8.encode secret) as [key|] eqn:Hk;
    [|left; exists secret, s; repeat split; first [reflexivity | assumption]].
  right. destruct (Hmac.is_ascii s) eqn:Ha.
  - right. destruct (String.eqb_spec s (Hmac.hexdigest key (data req))) as [->|Hne].
    + right. exists secret, key. rewrite compare_digest_same, dispatch_run.
      repeat split; first [reflexivity | assumption].
    + left. exists secret, s, key.
      rewrite (compare_digest_other key (data req) s Ha Hne).
      repeat split; first [reflexivity | assumption].
  - left. exists secret, s, key. rewrite (compare_digest_non_ascii _ s Ha).
    repeat split; first [reflexivity | assumption].
Qed.

(** The six ways [Webhook.post] can go up to the signature check. *)
Lemma post_cases api cfg req :
  let run := Webhook.post api cfg req in
  (content_length req = None /\ run = ([], Raise TypeError)) \/
  (exists s, content_length req = Some s /\ Builtins.int_of_string s = None /\
   run = ([], Return (error_response "Bad request" 400))) \/
  (exists n, Builtins.int (content_length req) = Return n /\
   Webhook.too_big n (MAX_CONTENT_LENGTH cfg) = true /\
   run = ([], Return (error_response "Too big" 413))) \/
  (exists n e, Builtins.int (content_length req) = Return n /\
   Webhook.too_big n (MAX_CONTENT_LENGTH cfg) = false /\
   json req = Raise e /\ run = ([EvGetJson], Raise e)) \/
  (exists n v, Builtins.int (content_length req) = Return n /\
   Webhook.too_big n (MAX_CONTENT_LENGTH cfg) = false /\
   json req = Return v /\ (forall items, v <> JDict items) /\
   run = ([EvGetJson], Raise AttributeError)) \/
  (exists items, reaches_signature_check cfg req items /\
   run = let '(t, r) := signature_check api cfg req items in (EvGetJson :: t, r)).
Proof.
  cbv zeta. destruct (content_length req) as [s|] eqn:Hc.
  - right. destruct (Builtins.int_of_string s) as [n|] eqn:Hi.
    + right.
      assert (Builtins.int (content_length req) = Return n) as Hn.
      { rewrite Hc. unfold Builtins.int. rewrite Hi. reflexivity. }
      rewrite <- Hc. rewrite (post_int_Return api cfg req n Hn).
      destruct (Webhook.too_big n (MAX_CONTENT_LENGTH cfg)) eqn:Hs; [left; eauto|].
      right. destruct (json req) as [v|e] eqn:Hj.
      * right. destruct (is_dict_dec v) as [[items ->]|Hv].
        -- right. exists items. split; [exists n; auto|].
           apply verify_dict, Hj.
        -- left. exists n, v. rewrite (verify_not_dict api cfg req v Hj Hv). auto.
      * left. exists n, e. rewrite (verify_json_raise api cfg req e Hj). auto.
    + left. exists s. rewrite (post_int_ValueError api cfg req s Hc Hi). auto.
  - left. rewrite (post_int_TypeError api cfg req Hc). auto.
Qed.

(* ===================================================================== *)
(** ** The shape of the digest *)
(* ===================================================================== *)

Lemma be_bytes_length n x : length (Sha1.be_bytes n x) = n.
Proof.
  unfold Sha1.be_bytes.
  rewrite List.length_map, List.length_rev, List.length_seq. reflexivity.
Qed.

Lemma sha1_digest_length m : length (Sha1.digest m) = 20%nat.
Proof.
  unfold Sha1.digest.
  destruct (Sha1.blocks _ _ _) as [[[[h0 h1] h2] h3] h4].
  rewrite !List.length_app, !be_bytes_length. reflexivity.
Qed.

Lemma hex_length l : String.length (Hmac.hex l) = (2 * length l)%nat.
Proof. induction l as [|x l IH]; [reflexivity|]. cbn [Hmac.hex String.length length]. lia. Qed.

Lemma hexdigest_length key msg : String.length (Hmac.hexdigest key msg) = 40%nat.
Proof. unfold Hmac.hexdigest, Hmac.digest. rewrite hex_length, sha1_digest_length. reflexivity. Qed.

Lemma hex_digit_lower d : 0 <= d < 16 -> is_lower_hex (Hmac.hex_digit d) = true.
Proof.
  intros H.
  assert (d = 0 \/ d = 1 \/ d = 2 \/ d = 3 \/ d = 4 \/ d = 5 \/ d = 6 \/ d = 7 \/
          d = 8 \/ d = 9 \/ d = 10 \/ d = 11 \/ d = 12 \/ d = 13 \/ d = 14 \/
          d = 15) as Hd by lia.
  repeat (destruct Hd as [-> | Hd]; [reflexivity|]). subst. reflexivity.
Qed.

Lemma hex_lower l :
  Forall octet l -> forallb is_lower_hex (list_ascii_of_string (Hmac.hex l)) = true.
Proof.
  induction 1 as [|x l Hx _ IH]; [reflexivity|].
  unfold octet in Hx. cbn [Hmac.hex list_ascii_of_string forallb].
  rewrite IH, !hex_digit_lower; [reflexivity| |].
  - apply Z.mod_pos_bound. lia.
  - split; [apply Z.div_pos; lia | apply Z.div_lt_upper_bound; lia].
Qed.

Lemma hexdigest_lower key msg :
  forallb is_lower_hex (list_ascii_of_string (Hmac.hexdigest key msg)) = true.
Proof. apply hex_lower, sha1_digest_octets. Qed.

(* ===================================================================== *)
(** ** Further properties of [Webhook.post] *)
(* ===================================================================== *)

(** Destructs the cases of [post_cases] and names the pieces. *)
Ltac post_by_cases api cfg req :=
  let n := fresh "n" in let e := fresh "e" in let v := fresh "v" in
  let s := fresh "s" in let items := fresh "items" in
  let Hn := fresh "Hn" in let Hs := fresh "Hs" in let Hj := fresh "Hj" in
  let Hv := fresh "Hv" in let Hp := fresh "Hp" in let Hr := fresh "Hr" in
  destruct (post_cases api cfg req)
    as [[Hn Hp] | [[s [Hn [Hs Hp]]] | [[n [Hn [Hs Hp]]] | [[n [e [Hn [Hs [Hj Hp]]]]]
        | [[n [v [Hn [Hs [Hj [Hv Hp]]]]]] | [items [Hr Hp]]]]]]];
  cbv zeta in Hp.

Ltac check_by_cases api cfg req items :=
  let secret := fresh "secret" in let s := fresh "s" in let key := fresh "key" in
  let Hk := fresh "Hk" in let Hg := fresh "Hg" in let He := fresh "He" in
  let Ha := fresh "Ha" in let Hne := fresh "Hne" in let Hc := fresh "Hc" in
  destruct (signature_check_cases api cfg req items)
    as [[Hk Hc] | [[secret [Hk [Hg Hc]]] | [[secret [s [Hk [Hg [He Hc]]]]]
        | [[secret [s [key [Hk [Hg [He [Ha Hc]]]]]]]
        | [[secret [s [key [Hk [Hg [He [Ha [Hne Hc]]]]]]]]
        | [secret [key [Hk [Hg [He Hc]]]]]]]]]];
  cbv zeta in Hc.

(** X1. Whatever [Webhook.post] does to the outside world, it does behind
    the length checks: a run with any event at all has a Content-Length
    that [int] parsed and the size check accepted, and its first event is
    [get_json]. *)
Theorem webhook_effects_after_length_checks api cfg req ev :
  In ev (trace (Webhook.post api cfg req)) ->
  (exists n, Builtins.int (content_length req) = Return n /\
             Webhook.too_big n (MAX_CONTENT_LENGTH cfg) = false) /\
  exists t, trace (Webhook.post api cfg req) = EvGetJson :: t.
Proof.
  post_by_cases api cfg req; rewrite Hp;
    try (intros Hin; simpl in Hin; contradiction); intros _.
  - split; [exists n; auto | exists []; reflexivity].
  - split; [exists n; auto | exists []; reflexivity].
  - destruct Hr as [n [Hn [Hs Hj]]].
    destruct (signature_check api cfg req items) as [t r].
    split; [exists n; auto | exists t; reflexivity].
Qed.

Lemma webhook_effects_after_length_checks_witness :
  (exists n, Builtins.int (content_length signed_request) = Return n /\
             Webhook.too_big n (MAX_CONTENT_LENGTH cfg_secret) = false) /\
  exists t, trace (Webhook.post echo_api cfg_secret signed_request) = EvGetJson :: t.
Proof.
  apply (webhook_effects_after_length_checks echo_api cfg_secret signed_request EvHmac).
  vm_compute. tauto.
Defined.

(** X2. The handler answers 413 "Too big" exactly when the declared length
    parses to a number that is not zero and is greater than the configured
    maximum: a length equal to the maximum passes, and so does 0 under any
    maximum. *)
Theorem webhook_too_big_iff api cfg req :
  Webhook.post api cfg req = ([], Return (error_response "Too big" 413)) <->
  exists n, Builtins.int (content_length req) = Return n /\
            n <> 0 /\ n > MAX_CONTENT_LENGTH cfg.
Proof.
  split.
  - post_by_cases api cfg req; rewrite Hp; try discriminate.
    + intros _. exists n. split; [exact Hn|].
      unfold Webhook.too_big in Hs. apply andb_true_iff in Hs as [H0 Hgt].
      apply negb_true_iff, Z.eqb_neq in H0. rewrite Z.gtb_ltb in Hgt.
      apply Z.ltb_lt in Hgt. lia.
    + destruct (signature_check api cfg req items); discriminate.
  - intros [n [Hn [H0 Hgt]]]. rewrite (post_int_Return api cfg req n Hn).
    unfold Webhook.too_big.
    replace (n =? 0) with false by (symmetry; apply Z.eqb_neq; exact H0).
    replace (n >? MAX_CONTENT_LENGTH cfg) with true
      by (symmetry; rewrite Z.gtb_ltb; apply Z.ltb_lt; lia).
    reflexivity.
Qed.

(** X3. With no secret configured the handler never looks at the signature
    header or at the raw body: two requests with the same Content-Length
    header and the same [get_json] result run alike. *)
Theorem webhook_no_secret_ignores_signature_and_body api cfg req1 req2 :
  SPARK_WEBHOOK_SECRET cfg = None ->
  content_length req1 = content_length req2 ->
  json req1 = json req2 ->
  Webhook.post api cfg req1 = Webhook.post api cfg req2.
Proof.
  intros Hk Hc Hj.
  destruct (Builtins.int (content_length req2)) as [n|e] eqn:Hn2.
  - assert (Builtins.int (content_length req1) = Return n) as Hn1
      by (rewrite Hc; exact Hn2).
    rewrite (post_int_Return api cfg req1 n Hn1), (post_int_Return api cfg req2 n Hn2).
    destruct (Webhook.too_big n (MAX_CONTENT_LENGTH cfg)); [reflexivity|].
    destruct (json req2) as [v|e] eqn:Hj2.
    + destruct (is_dict_dec v) as [[items ->]|Hv].
      * rewrite (verify_dict api cfg req1 items Hj), (verify_dict api cfg req2 items Hj2).
        unfold signature_check. rewrite Hk. reflexivity.
      * rewrite (verify_not_dict api cfg req1 v Hj Hv),
          (verify_not_dict api cfg req2 v Hj2 Hv). reflexivity.
    + rewrite (verify_json_raise api cfg req1 e Hj),
        (verify_json_raise api cfg req2 e Hj2). reflexivity.
  - unfold Webhook.post. fold (content_length req1). fold (content_length req2).
    rewrite Hc, Hn2. reflexivity.
Qed.

Lemma webhook_no_secret_ignores_signature_and_body_witness :
  Webhook.post echo_api cfg_open non_ascii_signature
  = Webhook.post echo_api cfg_open no_secret_other_body.
Proof.
  apply (webhook_no_secret_ignores_signature_and_body echo_api cfg_open).
  - reflexivity.
  - vm_compute. reflexivity.
  - reflexivity.
Defined.

(** X4. With a secret configured, a request that reaches the signature
    check without an X-Spark-Signature header is answered 403 after one
    warning that carries id and name; the raw body is not read, no digest
    is computed and the secret is not even encoded. *)
Theorem webhook_missing_signature api cfg req items secret :
  reaches_signature_check cfg req items ->
  SPARK_WEBHOOK_SECRET cfg = Some secret ->
  x_spark_signature req = None ->
  Webhook.post api cfg req
  = ([EvGetJson;
      EvLog WARNING Webhook.no_signature_warning
        [PJson (field "id" items); PJson (field "name" items)]],
     Return (error_response "Unauthorized" 403)).
Proof.
  intros [n [Hn [Hs Hj]]] Hk Hg.
  rewrite (post_checks_dict api cfg req n items Hn Hs Hj).
  unfold signature_check. rewrite Hk, Hg. reflexivity.
Qed.

Lemma webhook_missing_signature_witness :
  Webhook.post echo_api cfg_surrogate unsigned_request
  = ([EvGetJson;
      EvLog WARNING Webhook.no_signature_warning
        [PJson (field "id" payload_items); PJson (field "name" payload_items)]],
     Return (error_response "Unauthorized" 403)).
Proof.
  apply (webhook_missing_signature echo_api cfg_surrogate unsigned_request
           payload_items [0xDC80%N]).
  - exists 28. vm_compute. auto.
  - reflexivity.
  - vm_compute. reflexivity.
Defined.

(** X5. A configured secret that UTF-8 cannot encode (it holds a lone
    surrogate) makes every request that reaches the signature check with a
    signature header raise [UnicodeEncodeError], before the raw body is
    read. *)
Theorem webhook_unencodable_secret api cfg req items secret s :
  reaches_signature_check cfg req items ->
  SPARK_WEBHOOK_SECRET cfg = Some secret ->
  Utf8.encode secret = None ->
  x_spark_signature req = Some s ->
  Webhook.post api cfg req = ([EvGetJson], Raise UnicodeEncodeError).
Proof.
  intros [n [Hn [Hs Hj]]] Hk He Hg.
  rewrite (post_checks_dict api cfg req n items Hn Hs Hj).
  unfold signature_check. rewrite Hk, Hg, He. reflexivity.
Qed.

Lemma webhook_unencodable_secret_witness :
  Webhook.post echo_api cfg_surrogate signed_request
  = ([EvGetJson], Raise UnicodeEncodeError).
Proof.
  apply (webhook_unencodable_secret echo_api cfg_surrogate signed_request
           payload_items [0xDC80%N] "a924cfc00b4f1839de03b077de12316214252b64").
  - exists 28. vm_compute. auto.
  - reflexivity.
  - reflexivity.
  - vm_compute. reflexivity.
Defined.

(** X6. The computed digest is always 40 characters out of 0-9 and a-f, so
    an ASCII signature header of another length, or with any other
    character (upper-case hexadecimal included), is rejected with 403
    after the warning and the debug entry, and no collaborator is called. *)
Theorem webhook_rejects_malformed_signature api cfg req items secret key s :
  reaches_signature_check cfg req items ->
  SPARK_WEBHOOK_SECRET cfg = Some secret ->
  Utf8.encode secret = Some key ->
  x_spark_signature req = Some s ->
  Hmac.is_ascii s = true ->
  String.length s <> 40%nat \/
  forallb is_lower_hex (list_ascii_of_string s) = false ->
  Webhook.post api cfg req
  = ([EvGetJson; EvGetData; EvHmac;
      EvLog WARNING Webhook.mismatch_warning
        [PJson (field "id" items); PJson (field "name" items)];
      EvLog DEBUG Webhook.mismatch_debug
        [PJson (JStr (lit s)); PJson (JStr (lit (Hmac.hexdigest key (data req))))]],
     Return (error_response "Unauthorized" 403)).
Proof.
  intros [n [Hn [Hs Hj]]] Hk He Hg Ha Hbad.
  assert (s <> Hmac.hexdigest key (data req)) as Hne.
  { intros ->. destruct Hbad as [Hl | Hc].
    - apply Hl, hexdigest_length.
    - rewrite hexdigest_lower in Hc. discriminate. }
  rewrite (post_checks_dict api cfg req n items Hn Hs Hj).
  unfold signature_check. rewrite Hk, Hg, He.
  rewrite (compare_digest_other key (data req) s Ha Hne). reflexivity.
Qed.

Lemma webhook_rejects_malformed_signature_witness :
  outcome (Webhook.post echo_api cfg_secret upper_case_signature)
  = Return (error_response "Unauthorized" 403).
Proof.
  rewrite (webhook_rejects_malformed_signature echo_api cfg_secret
             upper_case_signature payload_items (lit "s3cret") (ascii_bytes "s3cret")
             "A924CFC00B4F1839DE03B077DE12316214252B64").
  - reflexivity.
  - exists 28. vm_compute. auto.
  - reflexivity.
  - vm_compute. reflexivity.
  - vm_compute. reflexivity.
  - vm_compute. reflexivity.
  - right. vm_compute. reflexivity.
Defined.

(** X7. A debug entry of [Webhook.post] is only ever the one of a
    signature mismatch, and it carries the supplied signature next to the
    digest that would have been accepted for this body. *)
Theorem webhook_debug_log_discloses_digest api cfg req template args :
  In (EvLog DEBUG template args) (trace (Webhook.post api cfg req)) ->
  exists secret key s,
    SPARK_WEBHOOK_SECRET cfg = Some secret /\ Utf8.encode secret = Some key /\
    x_spark_signature req = Some s /\ s <> Hmac.hexdigest key (data req) /\
    template = Webhook.mismatch_debug /\
    args = [PJson (JStr (lit s));
            PJson (JStr (lit (Hmac.hexdigest key (data req))))].
Proof.
  post_by_cases api cfg req; rewrite Hp;
    try (intros Hin; simpl in Hin; intuition discriminate).
  check_by_cases api cfg req items; rewrite Hc; simpl;
    try (intros Hin; intuition discriminate).
  intros [H|[H|[H|[H|[H|[]]]]]]; try discriminate.
  inversion H; subst. exists secret, key, s. auto 10.
Qed.

Lemma webhook_debug_log_discloses_digest_witness :
  exists secret key s,
    SPARK_WEBHOOK_SECRET cfg_secret = Some secret /\ Utf8.encode secret = Some key /\
    x_spark_signature upper_case_signature = Some s /\
    s <> Hmac.hexdigest key (data upper_case_signature) /\
    Webhook.mismatch_debug = Webhook.mismatch_debug /\
    [PJson (JStr (lit "A924CFC00B4F1839DE03B077DE12316214252B64"));
     PJson (JStr (lit "a924cfc00b4f1839de03b077de12316214252b64"))]
    = [PJson (JStr (lit s));
       PJson (JStr (lit (Hmac.hexdigest key (data upper_case_signature))))].
Proof.
  apply (webhook_debug_log_discloses_digest echo_api cfg_secret upper_case_signature).
  vm_compute. tauto.
Defined.

(** X8. [Webhook.post] calls a collaborator at most once, as its last
    step: either its run has no collaborator call, or [get_json] gave a
    JSON object, the run ends with the call of [handle_spark_webhook] on
    exactly that object, and the handler's outcome is that call's outcome. *)
Theorem webhook_calls_handler_last api cfg req :
  (forall ev, In ev (trace (Webhook.post api cfg req)) -> collaborator_call ev = false) \/
  exists t items,
    json req = Return (JDict items) /\
    Webhook.post api cfg req
    = (t ++ [EvHandleSparkWebhook (JDict items)],
       handle_spark_webhook api (JDict items)) /\
    forall ev, In ev t -> collaborator_call ev = false.
Proof.
  post_by_cases api cfg req; rewrite Hp;
    try (left; simpl; intros ev Hin; intuition (subst; reflexivity)).
  destruct Hr as [n [Hn [Hs Hj]]].
  check_by_cases api cfg req items; rewrite Hc;
    try (left; simpl; intros ev Hin; intuition (subst; reflexivity)).
  - right.
    exists [EvGetJson;
            EvLog INFO Webhook.received_info
              [PJson (field "id" items); PJson (field "name" items)]],
           items.
    repeat split; [exact Hj|].
    simpl. intros ev Hin. intuition (subst; reflexivity).
  - right.
    exists [EvGetJson; EvGetData; EvHmac;
            EvLog INFO Webhook.received_info
              [PJson (field "id" items); PJson (field "name" items)]],
           items.
    repeat split; [exact Hj|].
    simpl. intros ev Hin. intuition (subst; reflexivity).
Qed.

(** X9. The exceptions that can leave [Webhook.post]: [TypeError] for an
    absent Content-Length header or a signature header with a character
    outside ASCII, what [get_json] raised, [AttributeError] for a body
    that is JSON but no object, [UnicodeEncodeError] for a secret that
    UTF-8 cannot encode, and what the webhook handler raised.  The
    [ValueError] of [int] never leaves the handler. *)
Theorem webhook_exceptions api cfg req e :
  outcome (Webhook.post api cfg req) = Raise e ->
  (e = TypeError /\ content_length req = None) \/
  json req = Raise e \/
  (e = AttributeError /\
   exists v, json req = Return v /\ forall items, v <> JDict items) \/
  (e = UnicodeEncodeError /\
   exists secret, SPARK_WEBHOOK_SECRET cfg = Some secret /\ Utf8.encode secret = None) \/
  (e = TypeError /\
   exists s, x_spark_signature req = Some s /\ Hmac.is_ascii s = false) \/
  (exists p, json req = Return p /\ handle_spark_webhook api p = Raise e).
Proof.
  post_by_cases api cfg req; rewrite Hp; simpl; try discriminate.
  - intros [= <-]. auto.
  - intros [= <-]. auto.
  - intros [= <-]. right. right. left. eauto.
  - destruct Hr as [n [Hn [Hs Hj]]].
    check_by_cases api cfg req items; rewrite Hc; simpl; try discriminate.
    + intros H. do 5 right. eauto.
    + intros [= <-]. do 3 right. left. eauto.
    + intros [= <-]. do 4 right. left. eauto.
    + intros H. do 5 right. eauto.
Qed.

Lemma webhook_exceptions_witness :
  (TypeError = TypeError /\ content_length non_ascii_signature = None) \/
  json non_ascii_signature = Raise TypeError \/
  (TypeError = AttributeError /\
   exists v, json non_ascii_signature = Return v /\ forall items, v <> JDict items) \/
  (TypeError = UnicodeEncodeError /\
   exists secret, SPARK_WEBHOOK_SECRET cfg_secret = Some secret /\
                  Utf8.encode secret = None) \/
  (TypeError = TypeError /\
   exists s, x_spark_signature non_ascii_signature = Some s /\ Hmac.is_ascii s = false) \/
  (exists p, json non_ascii_signature = Return p /\
             handle_spark_webhook echo_api p = Raise TypeError).
Proof.
  apply (webhook_exceptions echo_api cfg_secret non_ascii_signature TypeError).
  vm_compute. reflexivity.
Defined.

(** X10. The raw body is read ([get_data]) exactly when there is a
    signature to verify: the request reached the signature check with a
    JSON object, a secret is configured and encodable, and the signature
    header is present. *)
Theorem webhook_reads_raw_body_iff api cfg req :
  In EvGetData (trace (Webhook.post api cfg req)) <->
  exists items secret key s,
    reaches_signature_check cfg req items /\
    SPARK_WEBHOOK_SECRET cfg = Some secret /\ Utf8.encode secret = Some key /\
    x_spark_signature req = Some s.
Proof.
  split.
  - post_by_cases api cfg req; rewrite Hp;
      try (intros Hin; simpl in Hin; intuition discriminate).
    check_by_cases api cfg req items; rewrite Hc; simpl;
      try (intros Hin; intuition discriminate); intros _.
    + exists items, secret, key, s. auto.
    + exists items, secret, key, s. auto.
    + exists items, secret, key, (Hmac.hexdigest key (data req)). auto.
  - intros [items [secret [key [s [[n [Hn [Hs Hj]]] [Hk [He Hg]]]]]]].
    rewrite (post_checks_dict api cfg req n items Hn Hs Hj).
    unfold signature_check. rewrite Hk, Hg, He.
    destruct (Hmac.compare_digest _ _) as [[|]|];
      [rewrite dispatch_run| |]; simpl; auto.
Qed.

(** X11. The info entry "webhook callback received" is written exactly in
    the runs that hand the callback to the webhook handler. *)
Theorem webhook_info_log_iff_dispatched api cfg req :
  (exists template args, In (EvLog INFO template args) (trace (Webhook.post api cfg req)))
  <-> exists p, In (EvHandleSparkWebhook p) (trace (Webhook.post api cfg req)).
Proof.
  post_by_cases api cfg req; rewrite Hp;
    try (split; [intros [? [? Hin]] | intros [? Hin]];
         simpl in Hin; intuition discriminate).
  check_by_cases api cfg req items; rewrite Hc;
    try (split; [intros [? [? Hin]] | intros [? Hin]];
         simpl in Hin; intuition discriminate).
  - split; intros _; [exists (JDict items) | do 2 eexists]; simpl; eauto.
  - split; intros _; [exists (JDict items) | do 2 eexists]; simpl; eauto 7.
Qed.

(* ===================================================================== *)
(** ** Further properties of [Alert.post] *)
(* ===================================================================== *)

(** The first argument, [to], over a body that is no JSON object. *)
Lemma parse_to_not_object req :
  (forall items, json req <> Return (JDict items)) ->
  exists e, reqparse.parse arg_to req = ([EvGetJson], Raise e) /\
            (json req = Raise e \/ e = TypeError \/ e = AttributeError \/
             e = reqparse.abort_validation arg_to).
Proof.
  intros Hno. unfold reqparse.parse, reqparse.source, get_json.
  destruct (json req) as [v|e] eqn:Hj.
  - rewrite bind_assoc, bind_emit_Return, bind_ret.
    destruct v as [|b|n|bits|s|l|items].
    + exists (reqparse.abort_validation arg_to). split; [reflexivity | auto].
    + exists TypeError. split; [reflexivity | auto].
    + exists TypeError. split; [reflexivity | auto].
    + exists TypeError. split; [reflexivity | auto].
    + unfold reqparse.contains. rewrite bind_lift_Return.
      destruct (Builtins.is_substring _ _).
      * exists AttributeError. split; [reflexivity | auto].
      * exists (reqparse.abort_validation arg_to). split; [reflexivity | auto].
    + unfold reqparse.contains. rewrite bind_lift_Return.
      destruct (existsb _ _).
      * exists AttributeError. split; [reflexivity | auto].
      * exists (reqparse.abort_validation arg_to). split; [reflexivity | auto].
    + exfalso. apply (Hno items). reflexivity.
  - exists e. split; [reflexivity | auto].
Qed.

(** The five ways [Alert.post_body] can go. *)
Lemma post_body_cases api req :
  let run := Alert.post_body api req in
  ((forall items, json req <> Return (JDict items)) /\
   exists e, run = ([EvGetJson], Raise e) /\
             (json req = Raise e \/ e = TypeError \/ e = AttributeError \/
              e = reqparse.abort_validation arg_to)) \/
  (exists items, json req = Return (JDict items) /\
   Builtins.assoc (lit "to") items = None /\
   run = ([EvGetJson], Raise (reqparse.abort_validation arg_to))) \/
  (exists items, json req = Return (JDict items) /\
   Builtins.assoc (lit "to") items <> None /\
   Builtins.assoc (lit "subject") items = None /\
   run = ([EvGetJson; EvGetJson], Raise (reqparse.abort_validation arg_subject))) \/
  (exists items to subject, json req = Return (JDict items) /\
   Builtins.assoc (lit "to") items = Some to /\
   Builtins.assoc (lit "subject") items = Some subject /\
   run = ([EvGetJson; EvGetJson; EvGetJson;
           EvLog INFO "create alert: to:{} subject:{}"
             [reqparse.convert to; reqparse.convert subject];
           EvSendSparkAlertMessage (reqparse.convert to) (reqparse.convert subject)
             (reqparse.convert (message_of items))],
          send_spark_alert_message api (reqparse.convert to)
            (reqparse.convert subject) (reqparse.convert (message_of items)))).
Proof.
  cbv zeta. destruct (json req) as [v|e] eqn:Hj.
  - destruct (is_dict_dec v) as [[items ->]|Hv].
    + right. rewrite (post_body_dict api req items Hj).
      destruct (Builtins.assoc (lit "to") items) as [to|] eqn:Ht.
      * right. destruct (Builtins.assoc (lit "subject") items) as [subject|] eqn:Hsub.
        -- right. exists items, to, subject. auto.
        -- left. exists items. rewrite Ht. repeat split; auto; discriminate.
      * left. exists items. auto.
    + left. assert (forall items, json req <> Return (JDict items)) as Hno.
      { intros items H. rewrite Hj in H. inversion H. apply (Hv items). assumption. }
      rewrite <- Hj. split; [exact Hno|].
      destruct (parse_to_not_object req Hno) as [e [Hp He]].
      exists e. split; [|exact He].
      unfold Alert.post_body, Alert.parser, reqparse.parse_args.
      change ({| reqparse.name := "to"; reqparse.required := true;
                 reqparse.help := "Identifier of person or Spark space to send the alert to. Required." |})
        with arg_to.
      rewrite Hp. reflexivity.
  - left. assert (forall items, json req <> Return (JDict items)) as Hno.
    { intros items H. rewrite Hj in H. discriminate. }
    rewrite <- Hj. split; [exact Hno|].
    destruct (parse_to_not_object req Hno) as [e' [Hp He]].
    exists e'. split; [|exact He].
    unfold Alert.post_body, Alert.parser, reqparse.parse_args.
    change ({| reqparse.name := "to"; reqparse.required := true;
               reqparse.help := "Identifier of person or Spark space to send the alert to. Required." |})
      with arg_to.
    rewrite Hp. reflexivity.
Qed.

(** X12. Of a JSON object body [Alert.post] reads the keys [to], [subject]
    and [message] and nothing else, and it cannot tell a [message] that is
    [null] from one that is absent: two object bodies that agree on [to],
    on [subject] and on the message (absent counting as [null]) run alike. *)
Theorem alert_reads_three_keys api req1 req2 items1 items2 :
  json req1 = Return (JDict items1) ->
  json req2 = Return (JDict items2) ->
  Builtins.assoc (lit "to") items1 = Builtins.assoc (lit "to") items2 ->
  Builtins.assoc (lit "subject") items1 = Builtins.assoc (lit "subject") items2 ->
  message_of items1 = message_of items2 ->
  Alert.post_body api req1 = Alert.post_body api req2.
Proof.
  intros H1 H2 Ht Hs Hm.
  rewrite (post_body_dict api req1 items1 H1), (post_body_dict api req2 items2 H2).
  cbv zeta. rewrite Ht, Hs, Hm. reflexivity.
Qed.

Lemma alert_reads_three_keys_witness :
  Alert.post_body echo_api
    (alert_request (JDict [(lit "to", JStr (lit "room1")); (lit "subject", JStr (lit "fire"))]))
  = Alert.post_body echo_api
      (alert_request (JDict [(lit "priority", JInt 1); (lit "message", JNone);
                             (lit "subject", JStr (lit "fire"));
                             (lit "to", JStr (lit "room1"))])).
Proof.
  eapply alert_reads_three_keys; reflexivity.
Defined.

(** X13. On a body that is no JSON object ([get_json] raised, or gave
    [None], a list, a text or a number) [Alert.post] asks for the JSON
    once and raises, without a log entry and without calling the message
    sender; what it raises is the exception of [get_json], the 400
    validation error for [to], or a [TypeError] or [AttributeError]. *)
Theorem alert_body_not_object api req :
  (forall items, json req <> Return (JDict items)) ->
  exists e, Alert.post_body api req = ([EvGetJson], Raise e) /\
            (json req = Raise e \/ e = TypeError \/ e = AttributeError \/
             e = reqparse.abort_validation arg_to).
Proof.
  intros Hno.
  destruct (post_body_cases api req)
    as [[_ H] | [[items [Hj _]] | [[items [Hj _]] | [items [to [subject [Hj _]]]]]]];
    [exact H | | |]; exfalso; apply (Hno items); exact Hj.
Qed.

Lemma alert_body_not_object_witness :
  exists e,
    Alert.post_body echo_api (alert_request (JStr (lit "tomorrow")))
    = ([EvGetJson], Raise e) /\
    (json (alert_request (JStr (lit "tomorrow"))) = Raise e \/ e = TypeError \/
     e = AttributeError \/ e = reqparse.abort_validation arg_to).
Proof.
  apply (alert_body_not_object echo_api (alert_request (JStr (lit "tomorrow")))).
  intros items. discriminate.
Defined.

(** X14. [Alert.post] calls a collaborator at most once, as its last step:
    either its run has no collaborator call, or it is three [get_json]
    calls, the info entry and the call of [send_spark_alert_message], whose
    outcome is the handler's; the values it logs are the values it sends. *)
Theorem alert_calls_sender_last api req :
  (forall ev, In ev (trace (Alert.post_body api req)) -> collaborator_call ev = false) \/
  exists to subject message,
    Alert.post_body api req
    = ([EvGetJson; EvGetJson; EvGetJson;
        EvLog INFO "create alert: to:{} subject:{}" [to; subject];
        EvSendSparkAlertMessage to subject message],
       send_spark_alert_message api to subject message).
Proof.
  destruct (post_body_cases api req)
    as [[_ [e [H _]]] | [[items [_ [_ H]]] | [[items [_ [_ [_ H]]]]
        | [items [to [subject [_ [_ [_ H]]]]]]]]]; cbv zeta in H; rewrite H.
  - left. simpl. intros ev Hin. intuition (subst; reflexivity).
  - left. simpl. intros ev Hin. intuition (subst; reflexivity).
  - left. simpl. intros ev Hin. intuition (subst; reflexivity).
  - right. eauto.
Qed.

(** X15. The exceptions that can leave [Alert.post]: what [get_json]
    raised, the 400 validation error for [to] or for [subject], a
    [TypeError] or [AttributeError] on a body that is JSON but no object,
    and what the message sender raised.  Looking up the parsed arguments
    never fails. *)
Theorem alert_exceptions api req e :
  outcome (Alert.post_body api req) = Raise e ->
  json req = Raise e \/
  e = reqparse.abort_validation arg_to \/
  e = reqparse.abort_validation arg_subject \/
  ((e = TypeError \/ e = AttributeError) /\
   forall items, json req <> Return (JDict items)) \/
  (exists to subject message, send_spark_alert_message api to subject message = Raise e).
Proof.
  destruct (post_body_cases api req)
    as [[Hno [e' [H He]]] | [[items [_ [_ H]]] | [[items [_ [_ [_ H]]]]
        | [items [to [subject [_ [_ [_ H]]]]]]]]]; cbv zeta in H; rewrite H; simpl.
  - intros [= <-]. destruct He as [He | [He | [He | He]]]; auto.
    + right. right. right. left. auto.
    + right. right. right. left. auto.
  - intros [= <-]. auto.
  - intros [= <-]. auto.
  - intros Hs. do 4 right. eauto.
Qed.

Lemma alert_exceptions_witness :
  json (alert_request (JList [JStr (lit "to")])) = Raise AttributeError \/
  AttributeError = reqparse.abort_validation arg_to \/
  AttributeError = reqparse.abort_validation arg_subject \/
  ((AttributeError = TypeError \/ AttributeError = AttributeError) /\
   forall items, json (alert_request (JList [JStr (lit "to")])) <> Return (JDict items)) \/
  (exists to subject message,
     send_spark_alert_message echo_api to subject message = Raise AttributeError).
Proof.
  apply (alert_exceptions echo_api (alert_request (JList [JStr (lit "to")]))).
  vm_compute. reflexivity.
Defined.

(* ===================================================================== *)
(** ** The key of an ASCII secret, and the warnings *)
(* ===================================================================== *)

Lemma byte_of_N_of_ascii a : Utf8.byte_of (N_of_ascii a) = byte_of_ascii a.
Proof. destruct a as [[] [] [] [] [] [] [] []]; reflexivity. Qed.

(** [bytes(s, 'utf-8')] of ASCII text is the text, one byte a character. *)
Lemma utf8_encode_ascii k :
  Hmac.is_ascii k = true -> Utf8.encode (lit k) = Some (ascii_bytes k).
Proof.
  unfold Hmac.is_ascii, lit, ascii_bytes.
  induction k as [|a k IH]; [reflexivity|].
  cbn [list_ascii_of_string forallb map Utf8.encode].
  intros H. apply andb_true_iff in H as [Ha Hk].
  rewrite (IH Hk). unfold Utf8.encode_point.
  change 0x80%N with 128%N. rewrite Ha, byte_of_N_of_ascii. reflexivity.
Qed.

(** X16. Under a secret of ASCII characters the key of the HMAC is the
    secret's text byte for byte: a request that reaches the signature
    check with the header equal to the lowercase hexadecimal HMAC-SHA1 of
    the raw body under those bytes is handed to the webhook handler. *)
Theorem webhook_ascii_secret api cfg req items k :
  reaches_signature_check cfg req items ->
  SPARK_WEBHOOK_SECRET cfg = Some (lit k) ->
  Hmac.is_ascii k = true ->
  x_spark_signature req = Some (Hmac.hexdigest (ascii_bytes k) (data req)) ->
  Webhook.post api cfg req
  = ([EvGetJson; EvGetData; EvHmac;
      EvLog INFO Webhook.received_info
        [PJson (field "id" items); PJson (field "name" items)];
      EvHandleSparkWebhook (JDict items)],
     handle_spark_webhook api (JDict items)).
Proof.
  intros [n [Hn [Hs Hj]]] Hk Ha Hg.
  rewrite (post_checks_dict api cfg req n items Hn Hs Hj).
  unfold signature_check.
  rewrite Hk, Hg, (utf8_encode_ascii k Ha), compare_digest_same, dispatch_run.
  reflexivity.
Qed.

Lemma webhook_ascii_secret_witness :
  Webhook.post echo_api cfg_secret signed_request
  = ([EvGetJson; EvGetData; EvHmac;
      EvLog INFO Webhook.received_info
        [PJson (field "id" payload_items); PJson (field "name" payload_items)];
      EvHandleSparkWebhook (JDict payload_items)],
     handle_spark_webhook echo_api (JDict payload_items)).
Proof.
  apply (webhook_ascii_secret echo_api cfg_secret signed_request payload_items "s3cret").
  - exists 28. vm_compute. auto.
  - reflexivity.
  - reflexivity.
  - vm_compute. reflexivity.
Defined.

(** X17. A warning is logged exactly in the runs that the handler itself
    ends with 403 "Unauthorized": a run with a warning returns that
    response and calls no collaborator, and a run that returns it without
    calling a collaborator has logged a warning. *)
Theorem webhook_warning_iff_unauthorized api cfg req :
  (exists template args,
     In (EvLog WARNING template args) (trace (Webhook.post api cfg req)))
  <-> outcome (Webhook.post api cfg req) = Return (error_response "Unauthorized" 403) /\
      forall ev, In ev (trace (Webhook.post api cfg req)) -> collaborator_call ev = false.
Proof.
  assert (forall t p,
            ~ (forall ev, In ev (t ++ [EvHandleSparkWebhook p]) ->
                          collaborator_call ev = false)) as Hcall.
  { intros t p H. specialize (H (EvHandleSparkWebhook p)).
    enough (true = false) by discriminate. apply H.
    apply in_or_app. right. left. reflexivity. }
  post_by_cases api cfg req; rewrite Hp;
    try (split; [intros [? [? Hin]]; simpl in Hin; intuition discriminate
                | intros [Ho _]; simpl in Ho; discriminate]).
  check_by_cases api cfg req items; rewrite Hc.
  - split; [intros [? [? Hin]]; simpl in Hin; intuition discriminate|].
    intros [_ Hno]. exfalso.
    apply (Hcall [EvGetJson; EvLog INFO Webhook.received_info
                    [PJson (field "id" items); PJson (field "name" items)]]
             (JDict items)).
    exact Hno.
  - split; intros _.
    + split; [reflexivity|]. simpl. intros ev Hin. intuition (subst; reflexivity).
    + do 2 eexists. simpl. eauto.
  - split; [intros [? [? Hin]]; simpl in Hin; intuition discriminate
           | intros [Ho _]; simpl in Ho; discriminate].
  - split; [intros [? [? Hin]]; simpl in Hin; intuition discriminate
           | intros [Ho _]; simpl in Ho; discriminate].
  - split; intros _.
    + split; [reflexivity|]. simpl. intros ev Hin. intuition (subst; reflexivity).
    + do 2 eexists. simpl. eauto 6.
  - split; [intros [? [? Hin]]; simpl in Hin; intuition discriminate|].
    intros [_ Hno]. exfalso.
    apply (Hcall [EvGetJson; EvGetData; EvHmac;
                  EvLog INFO Webhook.received_info
                    [PJson (field "id" items); PJson (field "name" items)]]
             (JDict items)).
    exact Hno.
Qed.

(* ===================================================================== *)
(** ** Failures and responses *)
(* ===================================================================== *)

(** C4, as the code has it. Every failure that [Webhook.post] detects
    itself is returned as a response, at the point of detection: for a
    Content-Length that [int] rejects, a declared length above the
    maximum, a missing signature and a mismatching ASCII signature, the
    handler returns the dict with the single key [error] and the short
    text of that failure, next to its status (400, 413, 403), and calls no
    collaborator; and whenever it returns without having called a
    collaborator, it has detected one of these failures and returns that
    response.  The failures that the framework detects leave the handlers
    as HTTP exceptions: past the length checks the exception of
    [get_json] leaves [Webhook.post] as it is, and a required argument
    that is missing makes [Alert.post] raise the parser's exception with
    status 400, whose body is keyed [message]. *)
Theorem failures_become_responses api cfg req :
  (forall msg status,
     webhook_failure cfg req msg status ->
     outcome (Webhook.post api cfg req)
     = Return (PTuple [PJson (JDict [(lit "error", JStr (lit msg))]);
                       PJson (JInt status)]) /\
     forall ev, In ev (trace (Webhook.post api cfg req)) -> collaborator_call ev = false) /\
  (forall resp,
     outcome (Webhook.post api cfg req) = Return resp ->
     (forall ev, In ev (trace (Webhook.post api cfg req)) -> collaborator_call ev = false) ->
     exists msg status,
       webhook_failure cfg req msg status /\
       resp = PTuple [PJson (JDict [(lit "error", JStr (lit msg))]);
                      PJson (JInt status)]) /\
  (forall n e,
     Builtins.int (content_length req) = Return n ->
     Webhook.too_big n (MAX_CONTENT_LENGTH cfg) = false ->
     json req = Raise e ->
     Webhook.post api cfg req = ([EvGetJson], Raise e)) /\
  (forall body,
     token_authorized api cfg req ->
     json req = Return body ->
     (absent "to" body ->
        Alert.post api cfg req
        = ([EvGetJson],
           Raise (HTTPException 400
                    (JDict [(lit "message",
                             JDict [(lit "to",
                                     JStr (lit "Identifier of person or Spark space to send the alert to. Required."))])])))) /\
     (forall items to,
        body = JDict items ->
        Builtins.assoc (lit "to") items = Some to ->
        Builtins.assoc (lit "subject") items = None ->
        Alert.post api cfg req
        = ([EvGetJson; EvGetJson],
           Raise (HTTPException 400
                    (JDict [(lit "message",
                             JDict [(lit "subject",
                                     JStr (lit "The subject (ie, first line) of text sent to the recipient. Required."))])]))))).
Proof.
  assert (forall t items,
            ~ (forall ev, In ev (EvGetJson :: t ++ [EvHandleSparkWebhook (JDict items)]) ->
                          collaborator_call ev = false)) as Hcall.
  { intros t items H. specialize (H (EvHandleSparkWebhook (JDict items))).
    enough (true = false) by discriminate. apply H.
    right. apply in_or_app. right. left. reflexivity. }
  split; [|split; [|split]].
  - (* a detected failure is returned, and no collaborator is called *)
    intros msg status Hf.
    destruct Hf as [s Hc Hi | n Hn Hs | items secret [n [Hn [Hs Hj]]] Hk Hg
                   | items secret key s [n [Hn [Hs Hj]]] Hk He Hg Ha Hne].
    + rewrite (post_int_ValueError api cfg req s Hc Hi).
      split; [reflexivity | intros ev []].
    + rewrite (post_int_Return api cfg req n Hn), Hs.
      split; [reflexivity | intros ev []].
    + rewrite (post_checks_dict api cfg req n items Hn Hs Hj).
      unfold signature_check. rewrite Hk, Hg.
      split; [reflexivity|].
      simpl. intros ev Hin. intuition (subst; reflexivity).
    + rewrite (post_checks_dict api cfg req n items Hn Hs Hj).
      unfold signature_check.
      rewrite Hk, Hg, He, (compare_digest_other key (data req) s Ha Hne).
      split; [reflexivity|].
      simpl. intros ev Hin. intuition (subst; reflexivity).
  - (* a response built by the handler is a detected failure *)
    intros resp. post_by_cases api cfg req; rewrite Hp; simpl; try discriminate.
    + intros [= <-] _. exists "Bad request", 400. split; [|reflexivity].
      eapply MalformedLength; eassumption.
    + intros [= <-] _. exists "Too big", 413. split; [|reflexivity].
      eapply BodyTooLarge; eassumption.
    + check_by_cases api cfg req items; rewrite Hc; simpl; try discriminate.
      * intros _ Hno. exfalso.
        apply (Hcall [EvLog INFO Webhook.received_info
                        [PJson (field "id" items); PJson (field "name" items)]]
                 items).
        exact Hno.
      * intros [= <-] _. exists "Unauthorized", 403. split; [|reflexivity].
        eapply MissingSignature; eassumption.
      * intros [= <-] _. exists "Unauthorized", 403. split; [|reflexivity].
        eapply SignatureMismatch; eassumption.
      * intros _ Hno. exfalso.
        apply (Hcall [EvGetData; EvHmac;
                      EvLog INFO Webhook.received_info
                        [PJson (field "id" items); PJson (field "name" items)]]
                 items).
        exact Hno.
  - (* the exception of get_json *)
    intros n e Hn Hs Hj. rewrite (post_passes api cfg req n Hn Hs).
    apply verify_json_raise, Hj.
  - (* the validation errors of [to] and of [subject] *)
    intros body Ht Hj. unfold Alert.post.
    rewrite (requires_api_token_authorized api req cfg _ Ht). split.
    + intros Hab. rewrite (post_body_absent_to api req body Hj Hab). reflexivity.
    + intros items to -> Hto Hsub.
      rewrite (post_body_dict api req items Hj), Hto, Hsub. reflexivity.
Qed.

Lemma failures_become_responses_witness :
  outcome (Webhook.post echo_api cfg_secret unsigned_request)
  = Return (PTuple [PJson (JDict [(lit "error", JStr (lit "Unauthorized"))]);
                    PJson (JInt 403)]) /\
  forall ev, In ev (trace (Webhook.post echo_api cfg_secret unsigned_request)) ->
             collaborator_call ev = false.
Proof.
  apply (proj1 (failures_become_responses echo_api cfg_secret unsigned_request)).
  apply (MissingSignature cfg_secret unsigned_request payload_items (lit "s3cret")).
  - exists 28. vm_compute. auto.
  - reflexivity.
  - vm_compute. reflexivity.
Defined.
